(** * simple_time_tracker.py: the session state machine and its two logs

    A shallow embedding of [src/simple_time_tracker.py].  The three button
    handlers [on_play], [on_pause] and [on_stop] become functions on the
    fields of [TimeTrackerApp] and on a [World] that holds the two log files
    and the trace of toolkit calls.  What the handlers read from outside
    (the clock, the modal dialog, [uuid4], whether an append raises) is an
    explicit argument.

    Modelling conventions.
    - A Python [str] is a list of code points ([list N]); [py] turns an
      ASCII literal into one.
    - A reading of [time.time()] is a rational.  Doubles are dyadic
      rationals, and [now - self._last_resume_at] is taken to be exact, which
      it is for two readings within a factor of two of each other.  What is
      proved of the value of such a difference either rests on bounds that
      rounding it to a double keeps (rounding is monotone, and [0], [-1]
      and [below_one] are doubles), or is said of readings that lie within
      a factor of two.
    - [int(x)] on a float truncates toward zero: [py_int].
    - [datetime.fromtimestamp(t, tz=utc).isoformat()] and the local calendar
      date of an instant are library functions of the platform; they are the
      section variables [isoformat] and [local_date]. *)

From Stdlib Require Import ZArith QArith List Bool Lia String Ascii.
From Stdlib Require Import DecimalString DecimalZ.
From Stdlib Require Import Lqa.
Import ListNotations.
Local Open Scope Z_scope.

(** ** Python strings *)

Definition str : Type := list N.

Definition py (s : string) : str := map N_of_ascii (list_ascii_of_string s).

Fixpoint str_eqb (a b : str) : bool :=
  match a, b with
  | [], [] => true
  | x :: a', y :: b' => N.eqb x y && str_eqb a' b'
  | _, _ => false
  end.

(** [str.isspace] on one code point, the table of [_PyUnicode_IsWhitespace]. *)
Definition is_space (c : N) : bool :=
  ((9 <=? c) && (c <=? 13) || (28 <=? c) && (c <=? 32)
   || (c =? 133) || (c =? 160) || (c =? 5760)
   || (8192 <=? c) && (c <=? 8202)
   || (c =? 8232) || (c =? 8233) || (c =? 8239) || (c =? 8287)
   || (c =? 12288))%N.

Fixpoint lstrip (s : str) : str :=
  match s with
  | c :: s' => if is_space c then lstrip s' else s
  | [] => []
  end.

Definition rstrip (s : str) : str := rev (lstrip (rev s)).

(** [s.strip()] *)
Definition strip (s : str) : str := rstrip (lstrip s).

(** [a or b] on strings: the empty string is falsy. *)
Definition str_or (a b : str) : str :=
  match a with [] => b | _ :: _ => a end.

(** [str(n)] for an [int]. *)
Definition str_of_Z (z : Z) : str := py (NilZero.string_of_int (Z.to_int z)).

(** [int(s)] on a decimal rendering, used to read a tabular cell back. *)
Definition Z_of_str (s : str) : option Z :=
  option_map Z.of_int
    (NilZero.int_of_string (string_of_list_ascii (map ascii_of_N s))).

(** [", ".join] style concatenation with a separator. *)
Fixpoint join (sep : str) (parts : list str) : str :=
  match parts with
  | [] => []
  | [p] => p
  | p :: rest => p ++ sep ++ join sep rest
  end.

(** ** Config *)

Definition APP_TITLE : str := py "Time Tracker".
Definition REFRESH_MS : Z := 200.
Definition STATUSES : list str :=
  [py "done"; py "in_progress"; py "blocked"; py "review"; py "cancelled";
   py "other"].

(** ** Data model *)

Record TimeEntry := {
  id : str;
  date : str;
  start_iso : str;
  end_iso : str;
  duration_seconds : Z;
  duration_hms : str;
  ticket_url : str;
  note : str;
  status : str
}.

(** A cell handed to [csv.writer.writerow]. *)
Inductive Cell :=
| CStr (s : str)
| CInt (n : Z).

Definition to_row (e : TimeEntry) : list Cell :=
  [CStr (id e); CStr (date e); CStr (start_iso e); CStr (end_iso e);
   CInt (duration_seconds e); CStr (duration_hms e); CStr (ticket_url e);
   CStr (note e); CStr (status e)].

Definition CSV_HEADER : list Cell :=
  [CStr (py "id"); CStr (py "date"); CStr (py "start_iso");
   CStr (py "end_iso"); CStr (py "duration_seconds");
   CStr (py "duration_hms"); CStr (py "ticket_url"); CStr (py "note");
   CStr (py "status")].

(** A value of the dictionary [asdict(entry)]. *)
Inductive JValue :=
| JStr (s : str)
| JInt (n : Z).

(** A record of the structured log: the dictionary that [json.dumps]
    renders on one line, keys in insertion order. *)
Definition JObject : Type := list (str * JValue).

Definition asdict (e : TimeEntry) : JObject :=
  [(py "id", JStr (id e)); (py "date", JStr (date e));
   (py "start_iso", JStr (start_iso e)); (py "end_iso", JStr (end_iso e));
   (py "duration_seconds", JInt (duration_seconds e));
   (py "duration_hms", JStr (duration_hms e));
   (py "ticket_url", JStr (ticket_url e)); (py "note", JStr (note e));
   (py "status", JStr (status e))].

(** ** Helpers *)

(** [f"{n:02d}"]: at least two characters, padded with a zero on the left;
    a negative number already has two. *)
Definition fmt_02d (n : Z) : str :=
  if (0 <=? n) && (n <? 10) then py "0" ++ str_of_Z n else str_of_Z n.

Definition fmt_hms (seconds : Z) : str :=
  let h := seconds / 3600 in
  let m := (seconds mod 3600) / 60 in
  let s := seconds mod 60 in
  fmt_02d h ++ py ":" ++ fmt_02d m ++ py ":" ++ fmt_02d s.

(** [int(x)] for a float [x]: truncation toward zero. *)
Definition py_int (x : Q) : Z := Z.quot (Qnum x) (Zpos (Qden x)).

(** ** The tabular writer: [csv.writer] with the default dialect

    Delimiter [,], quote character code point 34, [QUOTE_MINIMAL], doubled
    quotes, line terminator CR LF. *)

Module Csv.

Definition delimiter : N := 44.
Definition quotechar : N := 34.
Definition CR : N := 13.
Definition LF : N := 10.

(** A character that forces the field into quotes. *)
Definition special (c : N) : bool :=
  ((c =? delimiter) || (c =? quotechar) || (c =? CR) || (c =? LF))%N.

Definition escape (f : str) : str :=
  flat_map (fun c => if (c =? quotechar)%N then [quotechar; quotechar] else [c]) f.

Definition field (f : str) : str :=
  if existsb special f then quotechar :: escape f ++ [quotechar] else f.

Definition cell_text (c : Cell) : str :=
  match c with
  | CStr s => s
  | CInt n => str_of_Z n
  end.

(** [writer.writerow(row)]: the text handed to the file.  A row made of one
    empty field is written as a pair of quotes. *)
Definition writerow (row : list Cell) : str :=
  match map cell_text row with
  | [[]] => [quotechar; quotechar; CR; LF]
  | fields => join [delimiter] (map field fields) ++ [CR; LF]
  end.

(** Reading one written row back: the states of [csv.reader] for the
    default dialect (not strict, no escape character), one character per
    step, the end of the text being the end of the line.  A line break
    outside quotes ends the record, and the text is the text of one row
    when nothing follows it.  A line that holds nothing but its terminator
    is a row of no cells.  The file holds the text in UTF-8, from which the
    code points are recovered one for one. *)
Inductive pstate :=
| StartRecord | StartField | InField | InQuoted | QuoteInQuoted | AfterCR
| EndRecord.

Fixpoint parse (st : pstate) (cur : str) (acc : list str) (l : str)
  : option (list str) :=
  match l with
  | [] =>
      match st with
      | StartRecord => None
      | StartField | InField | InQuoted | QuoteInQuoted => Some (acc ++ [rev cur])
      | AfterCR | EndRecord => Some acc
      end
  | c :: l' =>
    match st with
    | StartRecord =>
        if (c =? CR)%N then parse AfterCR [] acc l'
        else if (c =? LF)%N then parse EndRecord [] acc l'
        else if (c =? quotechar)%N then parse InQuoted [] acc l'
        else if (c =? delimiter)%N then parse StartField [] (acc ++ [[]]) l'
        else parse InField [c] acc l'
    | StartField =>
        if (c =? CR)%N then parse AfterCR [] (acc ++ [[]]) l'
        else if (c =? LF)%N then parse EndRecord [] (acc ++ [[]]) l'
        else if (c =? quotechar)%N then parse InQuoted [] acc l'
        else if (c =? delimiter)%N then parse StartField [] (acc ++ [[]]) l'
        else parse InField [c] acc l'
    | InField =>
        if (c =? CR)%N then parse AfterCR [] (acc ++ [rev cur]) l'
        else if (c =? LF)%N then parse EndRecord [] (acc ++ [rev cur]) l'
        else if (c =? delimiter)%N then parse StartField [] (acc ++ [rev cur]) l'
        else parse InField (c :: cur) acc l'
    | InQuoted =>
        if (c =? quotechar)%N then parse QuoteInQuoted cur acc l'
        else parse InQuoted (c :: cur) acc l'
    | QuoteInQuoted =>
        if (c =? quotechar)%N then parse InQuoted (c :: cur) acc l'
        else if (c =? delimiter)%N then parse StartField [] (acc ++ [rev cur]) l'
        else if (c =? CR)%N then parse AfterCR [] (acc ++ [rev cur]) l'
        else if (c =? LF)%N then parse EndRecord [] (acc ++ [rev cur]) l'
        else parse InField (c :: cur) acc l'
    | AfterCR =>
        if (c =? LF)%N then parse EndRecord [] acc l' else None
    | EndRecord => None
    end
  end.

Definition readrow (line : str) : option (list str) :=
  parse StartRecord [] [] line.

End Csv.

(** The entry a tabular row stands for, by the declared column order. *)
Definition entry_of_fields (fields : list str) : option TimeEntry :=
  match fields with
  | [f_id; f_date; f_start; f_end; f_secs; f_hms; f_url; f_note; f_status] =>
      match Z_of_str f_secs with
      | Some n =>
          Some {| id := f_id; date := f_date; start_iso := f_start;
                  end_iso := f_end; duration_seconds := n;
                  duration_hms := f_hms; ticket_url := f_url;
                  note := f_note; status := f_status |}
      | None => None
      end
  | _ => None
  end.

Definition entry_of_row (line : str) : option TimeEntry :=
  match Csv.readrow line with
  | Some fields => entry_of_fields fields
  | None => None
  end.

(** ** Entry dialog *)

(** The dictionary [dlg.result]. *)
Definition Details : Type := list (str * str).

(** [d.get(k, default)] *)
Fixpoint dict_get (d : Details) (k : str) (default : str) : str :=
  match d with
  | [] => default
  | (k', v) :: d' => if str_eqb k k' then v else dict_get d' k default
  end.

(** What the user does with the modal dialog: presses Save (or Return) with
    the three variables holding these strings, or cancels (Cancel, Escape,
    or closing the window, which leaves [result] at its initial [None]). *)
Inductive DialogInput :=
| Save (link_var note_var status_var : str)
| Cancel.

Definition _save (link_var note_var status_var : str) : option Details :=
  Some [(py "ticket_url", strip link_var);
        (py "note", strip note_var);
        (py "status", str_or (strip status_var) (py "other"))].

Definition _cancel : option Details := None.

Definition dialog_result (u : DialogInput) : option Details :=
  match u with
  | Save l n s => _save l n s
  | Cancel => _cancel
  end.

(** ** Main app: state and world *)

Inductive State := idle | running | paused.

Record TimeTrackerApp := {
  state : State;
  session_start : option Q;
  session_end : option Q;
  accum_seconds : Z;
  _tick_job : option nat;
  _last_resume_at : option Q
}.

(** Calls into the toolkit, in the order they are made. *)
Inductive UiCall :=
| ButtonStates (play pause stop : bool)
| LabelConfig (text : str)
| After (ms : Z) (job : nat)
| ShowInfo (title message : str)
| ShowError (title message : str)
| OpenDialog (duration_hms : str).

(** The two log files ([None]: the file does not exist; otherwise what has
    been written, one element per written record or row), the toolkit
    calls made so far, and the number of timer jobs handed out by [after]. *)
Record World := {
  jsonl_file : option (list JObject);
  csv_file : option (list str);
  ui : list UiCall;
  after_count : nat
}.

Definition lines {A} (f : option (list A)) : list A :=
  match f with Some l => l | None => [] end.

Definition ui_call (c : UiCall) (w : World) : World :=
  {| jsonl_file := jsonl_file w; csv_file := csv_file w;
     ui := ui w ++ [c]; after_count := after_count w |}.

(** Whether an append raises, as the file system decides.  An append that
    raises leaves its file as it was. *)
Inductive IoOutcome :=
| IoOk
| JsonlRaises (e : str)
| CsvRaises (e : str).

(** [open(JSONL_PATH, "a")] and [jf.write(json.dumps(asdict(entry)) + "\n")] *)
Definition append_jsonl (r : JObject) (w : World) : World :=
  {| jsonl_file := Some (lines (jsonl_file w) ++ [r]); csv_file := csv_file w;
     ui := ui w; after_count := after_count w |}.

(** [open(CSV_PATH, "a", newline="")] and [writer.writerow(entry.to_row())] *)
Definition append_csv (row : list Cell) (w : World) : World :=
  {| jsonl_file := jsonl_file w;
     csv_file := Some (lines (csv_file w) ++ [Csv.writerow row]);
     ui := ui w; after_count := after_count w |}.

(** The body of the [try]: the structured log first, the tabular log
    second.  The result is the world reached and the exception, if one was
    raised. *)
Definition write_logs (io : IoOutcome) (entry : TimeEntry) (w : World)
  : World * option str :=
  match io with
  | JsonlRaises e => (w, Some e)
  | CsvRaises e => (append_jsonl (asdict entry) w, Some e)
  | IoOk => (append_csv (to_row entry) (append_jsonl (asdict entry) w), None)
  end.

Definition ensure_paths (w : World) : World :=
  let w1 :=
    match csv_file w with
    | None => {| jsonl_file := jsonl_file w;
                 csv_file := Some [Csv.writerow CSV_HEADER];
                 ui := ui w; after_count := after_count w |}
    | Some _ => w
    end in
  match jsonl_file w1 with
  | None => {| jsonl_file := Some []; csv_file := csv_file w1;
               ui := ui w1; after_count := after_count w1 |}
  | Some _ => w1
  end.

(** Field updates of [self]. *)
Definition set_state (v : State) (a : TimeTrackerApp) : TimeTrackerApp :=
  {| state := v; session_start := session_start a;
     session_end := session_end a; accum_seconds := accum_seconds a;
     _tick_job := _tick_job a; _last_resume_at := _last_resume_at a |}.

Definition set_session_start (v : option Q) (a : TimeTrackerApp) : TimeTrackerApp :=
  {| state := state a; session_start := v;
     session_end := session_end a; accum_seconds := accum_seconds a;
     _tick_job := _tick_job a; _last_resume_at := _last_resume_at a |}.

Definition set_session_end (v : option Q) (a : TimeTrackerApp) : TimeTrackerApp :=
  {| state := state a; session_start := session_start a;
     session_end := v; accum_seconds := accum_seconds a;
     _tick_job := _tick_job a; _last_resume_at := _last_resume_at a |}.

Definition set_accum_seconds (v : Z) (a : TimeTrackerApp) : TimeTrackerApp :=
  {| state := state a; session_start := session_start a;
     session_end := session_end a; accum_seconds := v;
     _tick_job := _tick_job a; _last_resume_at := _last_resume_at a |}.

Definition set_tick_job (v : option nat) (a : TimeTrackerApp) : TimeTrackerApp :=
  {| state := state a; session_start := session_start a;
     session_end := session_end a; accum_seconds := accum_seconds a;
     _tick_job := v; _last_resume_at := _last_resume_at a |}.

Definition set_last_resume_at (v : option Q) (a : TimeTrackerApp) : TimeTrackerApp :=
  {| state := state a; session_start := session_start a;
     session_end := session_end a; accum_seconds := accum_seconds a;
     _tick_job := _tick_job a; _last_resume_at := v |}.

(** ** State helpers *)

Definition _update_buttons (a : TimeTrackerApp) (w : World) : World :=
  ui_call
    (ButtonStates
       (match state a with idle | paused => true | running => false end)
       (match state a with running => true | _ => false end)
       (match state a with running | paused => true | idle => false end))
    w.

(** [self.accum_seconds += int(now - self._last_resume_at)], under the
    guard [self.state == "running" and self._last_resume_at is not None]. *)
Definition fold_segment (now : Q) (a : TimeTrackerApp) : Z :=
  match state a, _last_resume_at a with
  | running, Some r => accum_seconds a + py_int (now - r)
  | _, _ => accum_seconds a
  end.

(** [_tick]: [clock] is the reading of [time.time()] it takes, which it
    takes only in the running state. *)
Definition _tick (clock : Q) (a : TimeTrackerApp) (w : World)
  : TimeTrackerApp * World :=
  let total := fold_segment clock a in
  let w1 := ui_call (LabelConfig (fmt_hms total)) w in
  let job := after_count w1 in
  (set_tick_job (Some job) a,
   {| jsonl_file := jsonl_file w1; csv_file := csv_file w1;
      ui := ui w1 ++ [After REFRESH_MS job];
      after_count := S (after_count w1) |}).

(** [if self._tick_job is None: self._tick()] *)
Definition start_tick (clock : Q) (a : TimeTrackerApp) (w : World)
  : TimeTrackerApp * World :=
  match _tick_job a with
  | None => _tick clock a w
  | Some _ => (a, w)
  end.

(** ** Button handlers *)

(** [now] is the reading taken on entry, [tick_clock] the one [_tick] takes
    if the refresh timer is started here. *)
Definition on_play (now tick_clock : Q) (a : TimeTrackerApp) (w : World)
  : TimeTrackerApp * World :=
  match state a with
  | running => (a, w)
  | st =>
      let a1 :=
        match st with
        | idle => set_accum_seconds 0 (set_session_start (Some now) a)
        | _ => a
        end in
      let a2 := set_last_resume_at (Some now) (set_state running a1) in
      let (a3, w3) := start_tick tick_clock a2 w in
      (a3, _update_buttons a3 w3)
  end.

Definition on_pause (now : Q) (a : TimeTrackerApp) (w : World)
  : TimeTrackerApp * World :=
  match state a with
  | running =>
      let a1 :=
        match _last_resume_at a with
        | Some r => set_accum_seconds (accum_seconds a + py_int (now - r)) a
        | None => a
        end in
      let a2 := set_state paused (set_last_resume_at None a1) in
      (a2, _update_buttons a2 w)
  | _ => (a, w)
  end.

(** In the idle state [_tick] reads no clock, so none is passed on. *)
Definition _reset_session (a : TimeTrackerApp) (w : World)
  : TimeTrackerApp * World :=
  let a1 :=
    set_state idle
      (set_session_end None (set_session_start None (set_accum_seconds 0 a))) in
  let w1 := _update_buttons a1 w in
  start_tick 0%Q a1 w1.

(** [x or now] on an optional float: [None] and [0.0] are falsy. *)
Definition or_now (x : option Q) (now : Q) : Q :=
  match x with
  | Some v => if Qeq_bool v 0 then now else v
  | None => now
  end.

(** [if not details]: [None] and the empty dictionary are falsy. *)
Definition truthy (details : option Details) : option Details :=
  match details with
  | Some (kv :: d) => Some (kv :: d)
  | _ => None
  end.

Section Handlers.

(** [datetime.fromtimestamp(t, tz=timezone.utc).isoformat()] *)
Variable isoformat : Q -> str.
(** [datetime.fromtimestamp(t, tz=timezone.utc).astimezone().strftime("%Y-%m-%d")] *)
Variable local_date : Q -> str.

(** Lines 227 to 233 of [on_stop]: finalize the duration. *)
Definition stop_finalize (now : Q) (a : TimeTrackerApp) : TimeTrackerApp :=
  set_session_end (Some now)
    (set_state idle
       (set_last_resume_at None (set_accum_seconds (fold_segment now a) a))).

(** [total_sec] as [on_stop] computes it. *)
Definition total_sec (now : Q) (a : TimeTrackerApp) : Z :=
  accum_seconds (stop_finalize now a).

Definition build_entry (now : Q) (a : TimeTrackerApp) (details : Details)
    (uuid4 : str) : TimeEntry :=
  let total := accum_seconds a in
  let start_dt := or_now (session_start a) now in
  let end_dt := or_now (session_end a) now in
  {| id := uuid4;
     date := local_date start_dt;
     start_iso := isoformat start_dt;
     end_iso := isoformat end_dt;
     duration_seconds := total;
     duration_hms := fmt_hms total;
     ticket_url := dict_get details (py "ticket_url") [];
     note := dict_get details (py "note") [];
     status := dict_get details (py "status") (py "other") |}.

(** [now]: the clock reading; [user]: what the user does with the dialog,
    if it opens; [uuid4]: the identifier [uuid.uuid4()] returns, if it is
    called; [io]: whether an append raises, if the logs are written. *)
Definition on_stop (now : Q) (user : DialogInput) (uuid4 : str)
    (io : IoOutcome) (a : TimeTrackerApp) (w : World)
  : TimeTrackerApp * World :=
  match state a with
  | idle => (a, w)
  | _ =>
      let a1 := stop_finalize now a in
      let total := accum_seconds a1 in
      let hms := fmt_hms total in
      let w1 := _update_buttons a1 w in
      if total <=? 0 then
        _reset_session a1
          (ui_call (ShowInfo APP_TITLE (py "Nothing to save (duration is 0s).")) w1)
      else
        let w2 := ui_call (OpenDialog hms) w1 in
        match truthy (dialog_result user) with
        | None =>
            let a2 := set_state paused a1 in
            (a2, _update_buttons a2 w2)
        | Some details =>
            let entry := build_entry now a1 details uuid4 in
            match write_logs io entry w2 with
            | (w3, Some e) =>
                let w4 :=
                  ui_call (ShowError APP_TITLE (py "Failed to write logs: " ++ e)) w3 in
                let a2 := set_state paused a1 in
                (a2, _update_buttons a2 w4)
            | (w3, None) =>
                _reset_session a1 (ui_call (ShowInfo APP_TITLE (py "Entry saved.")) w3)
            end
        end
  end.

(** [__init__]: the fields, the first [_update_buttons], [ensure_paths]. *)
Definition TimeTrackerApp_init (w : World) : TimeTrackerApp * World :=
  let a := {| state := idle; session_start := None; session_end := None;
              accum_seconds := 0; _tick_job := None;
              _last_resume_at := None |} in
  (a, ensure_paths (_update_buttons a w)).

(** ** Runs *)

Inductive Event :=
| Play (now tick_clock : Q)
| Pause (now : Q)
| Stop (now : Q) (user : DialogInput) (uuid4 : str) (io : IoOutcome).

Definition step (e : Event) (aw : TimeTrackerApp * World)
  : TimeTrackerApp * World :=
  match e with
  | Play now tick_clock => on_play now tick_clock (fst aw) (snd aw)
  | Pause now => on_pause now (fst aw) (snd aw)
  | Stop now user uuid4 io => on_stop now user uuid4 io (fst aw) (snd aw)
  end.

Definition run (tr : list Event) (aw : TimeTrackerApp * World)
  : TimeTrackerApp * World :=
  fold_left (fun aw e => step e aw) tr aw.

(** The button a user can press, by the last [_update_buttons]. *)
Definition enabled (e : Event) (a : TimeTrackerApp) : bool :=
  match e, state a with
  | Play _ _, (idle | paused) => true
  | Pause _, running => true
  | Stop _ _ _ _, (running | paused) => true
  | _, _ => false
  end.

Fixpoint respects (tr : list Event) (aw : TimeTrackerApp * World) : bool :=
  match tr with
  | [] => true
  | e :: tr' => enabled e (fst aw) && respects tr' (step e aw)
  end.

(** The run never passes through the idle state: the session that is live
    at the start is still the live one at the end. *)
Fixpoint stays_active (tr : list Event) (aw : TimeTrackerApp * World) : bool :=
  match tr with
  | [] => true
  | e :: tr' =>
      match state (fst (step e aw)) with
      | idle => false
      | _ => stays_active tr' (step e aw)
      end
  end.

End Handlers.

(** ** The session as section 4.1 of the specification describes it

    A second, independent account of a run, written from the words of the
    specification: a segment is an uninterrupted running interval between a
    Play (or resume) and the next Pause or Stop, and the segments are
    forgotten at each reset to zero (Play from idle, a Stop with nothing to
    save, a Stop that persisted its entry). *)

Module SpecSession.

Record t := {
  phase : State;
  resume_instant : option Q;
  segments : list (Q * Q)
}.

Definition initial : t :=
  {| phase := idle; resume_instant := None; segments := [] |}.

(** Whole-second truncation of a segment's duration. *)
Definition whole_seconds (seg : Q * Q) : Z := py_int (snd seg - fst seg).

Definition sum_whole_seconds (segs : list (Q * Q)) : Z :=
  fold_right Z.add 0 (map whole_seconds segs).

(** End the current segment, if one is running. *)
Definition close (now : Q) (s : t) : t :=
  match phase s, resume_instant s with
  | running, Some r =>
      {| phase := phase s; resume_instant := None;
         segments := segments s ++ [(r, now)] |}
  | _, _ =>
      {| phase := phase s; resume_instant := None; segments := segments s |}
  end.

Definition to_paused (s : t) : t :=
  {| phase := paused; resume_instant := None; segments := segments s |}.

Definition step (e : Event) (s : t) : t :=
  match e with
  | Play now _ =>
      match phase s with
      | idle => {| phase := running; resume_instant := Some now; segments := [] |}
      | paused =>
          {| phase := running; resume_instant := Some now;
             segments := segments s |}
      | running => s
      end
  | Pause now =>
      match phase s with
      | running => to_paused (close now s)
      | _ => s
      end
  | Stop now user _ io =>
      match phase s with
      | idle => s
      | _ =>
          let c := close now s in
          if sum_whole_seconds (segments c) <=? 0 then initial
          else
            match user, io with
            | Cancel, _ => to_paused c
            | Save _ _ _, IoOk => initial
            | Save _ _ _, _ => to_paused c
            end
      end
  end.

Definition run (tr : list Event) : t :=
  fold_left (fun s e => step e s) tr initial.

End SpecSession.

(** The application agrees with the specification's account of the run. *)
Definition refines (a : TimeTrackerApp) (s : SpecSession.t) : Prop :=
  state a = SpecSession.phase s /\
  _last_resume_at a = SpecSession.resume_instant s /\
  accum_seconds a = SpecSession.sum_whole_seconds (SpecSession.segments s).

(** What is persisted as [status] when the dialog is saved with
    [status_var] holding the given string. *)
Definition persisted_status (status_var : str) : str :=
  match _save [] [] status_var with
  | Some details => dict_get details (py "status") (py "other")
  | None => py "other"
  end.

(** ** Pairing of the two logs *)


Definition header_line : str := Csv.writerow CSV_HEADER.





(** The invariant of the session: a resume instant exactly while running. *)
Definition resume_iff_running (a : TimeTrackerApp) : Prop :=
  _last_resume_at a <> None <-> state a = running.

Definition is_pause_or_stop (e : Event) : bool :=
  match e with
  | Play _ _ => false
  | Pause _ | Stop _ _ _ _ => true
  end.

(** A world in which neither log file exists yet. *)
Definition fresh_world : World :=
  {| jsonl_file := None; csv_file := None; ui := []; after_count := 0 |}.

(** A stand-in for the platform's rendering of an instant, for evaluating
    runs: the whole seconds since the epoch in decimal. *)
Definition epoch_text (t : Q) : str := str_of_Z (py_int t).

(** ** Sample runs *)

(** The scenario of the specification moved off the zero reading: Play at
    1000, Pause 65 seconds later, resume at 1070, and the events before
    the final Stop at 1130. *)
Definition scenario : list Event :=
  [Play 1000 1000; Pause 1065; Play 1070 1070].

Definition started : TimeTrackerApp * World :=
  TimeTrackerApp_init fresh_world.

(** The application in the running state, 65 whole seconds accumulated. *)
Definition sample_running : TimeTrackerApp * World :=
  run epoch_text epoch_text scenario started.

(** Right after the first Play. *)
Definition just_played : TimeTrackerApp * World :=
  run epoch_text epoch_text [Play 1000 1000] started.



(** ** The rest of the application *)

(** [_toggle_play_pause], bound to the space bar. *)
Definition _toggle_play_pause (now tick_clock : Q) (a : TimeTrackerApp) (w : World)
  : TimeTrackerApp * World :=
  match state a with
  | running => on_pause now a w
  | _ => on_play now tick_clock a w
  end.

(** What the file system does when [ensure_paths] calls it: each call goes
    through, or one of them raises.  An outcome names the call that raises
    if it is made; [ensure_paths] does not make the calls of a step whose
    file exists.  [open(..., "w")] that raises creates no file; a header
    write that raises leaves the file it had just created with [held] in
    it. *)
Inductive StartupIo :=
| StartupOk
| MakedirsRaises (e : str)
| CsvOpenRaises (e : str)
| CsvWriteRaises (e : str) (held : list str)
| JsonlOpenRaises (e : str).

(** [ensure_paths] with its exceptions: the world it leaves and the
    exception that leaves it, if one is raised.  Nothing in it catches
    one. *)
Definition ensure_paths_io (fs : StartupIo) (w : World) : World * option str :=
  match fs with
  | MakedirsRaises e => (w, Some e)
  | _ =>
      let csv_step :=
        match csv_file w with
        | Some _ => (w, None)
        | None =>
            match fs with
            | CsvOpenRaises e => (w, Some e)
            | CsvWriteRaises e held =>
                ({| jsonl_file := jsonl_file w; csv_file := Some held;
                    ui := ui w; after_count := after_count w |}, Some e)
            | _ =>
                ({| jsonl_file := jsonl_file w;
                    csv_file := Some [Csv.writerow CSV_HEADER];
                    ui := ui w; after_count := after_count w |}, None)
            end
        end in
      match csv_step with
      | (w1, Some e) => (w1, Some e)
      | (w1, None) =>
          match jsonl_file w1 with
          | Some _ => (w1, None)
          | None =>
              match fs with
              | JsonlOpenRaises e => (w1, Some e)
              | _ =>
                  ({| jsonl_file := Some []; csv_file := csv_file w1;
                      ui := ui w1; after_count := after_count w1 |}, None)
              end
          end
      end
  end.

(** [__init__] with the exceptions of [ensure_paths]: there is an
    application only if none is raised. *)
Definition TimeTrackerApp_init_io (fs : StartupIo) (w : World)
  : option TimeTrackerApp * World :=
  let a := {| state := idle; session_start := None; session_end := None;
              accum_seconds := 0; _tick_job := None;
              _last_resume_at := None |} in
  match ensure_paths_io fs (_update_buttons a w) with
  | (w1, None) => (Some a, w1)
  | (w1, Some _) => (None, w1)
  end.

(** The refresh jobs that the toolkit fires while a modal window of
    [on_stop] is open: [wait_window] and [messagebox] run the event loop,
    and each job that comes due there calls [_tick] and schedules the next.
    The state is idle at those points, so [_tick] reads no clock. *)
Fixpoint nested_ticks (n : nat) (a : TimeTrackerApp) (w : World)
  : TimeTrackerApp * World :=
  match n with
  | O => (a, w)
  | S n' =>
      match _tick_job a with
      | Some _ => nested_ticks n' (fst (_tick 0%Q a w)) (snd (_tick 0%Q a w))
      | None => (a, w)
      end
  end.

(** [on_stop] with its nested event loops: [n1] refresh jobs fire while its
    first modal window is open (the notice that there is nothing to save,
    or the dialog), [n2] while its second is (the error box or the notice
    that the entry was saved).  The dialog takes the grab and the message
    boxes are modal, so no button press and no key reaches the application
    there: the refresh jobs are all that runs.  [total_sec] and
    [duration_hms] are locals computed before the first window. *)
Definition on_stop_modal (isoformat local_date : Q -> str) (now : Q)
    (user : DialogInput) (uuid4 : str) (io : IoOutcome) (n1 n2 : nat)
    (a : TimeTrackerApp) (w : World) : TimeTrackerApp * World :=
  match state a with
  | idle => (a, w)
  | _ =>
      let a1 := stop_finalize now a in
      let total := accum_seconds a1 in
      let hms := fmt_hms total in
      let w1 := _update_buttons a1 w in
      if total <=? 0 then
        let aw2 :=
          nested_ticks n1 a1
            (ui_call (ShowInfo APP_TITLE (py "Nothing to save (duration is 0s).")) w1) in
        _reset_session (fst aw2) (snd aw2)
      else
        let aw2 := nested_ticks n1 a1 (ui_call (OpenDialog hms) w1) in
        match truthy (dialog_result user) with
        | None =>
            let a3 := set_state paused (fst aw2) in
            (a3, _update_buttons a3 (snd aw2))
        | Some details =>
            let entry :=
              build_entry isoformat local_date now (fst aw2) details uuid4 in
            match write_logs io entry (snd aw2) with
            | (w3, Some e) =>
                let aw4 :=
                  nested_ticks n2 (fst aw2)
                    (ui_call (ShowError APP_TITLE (py "Failed to write logs: " ++ e)) w3) in
                let a5 := set_state paused (fst aw4) in
                (a5, _update_buttons a5 (snd aw4))
            | (w3, None) =>
                let aw4 :=
                  nested_ticks n2 (fst aw2)
                    (ui_call (ShowInfo APP_TITLE (py "Entry saved.")) w3) in
                _reset_session (fst aw4) (snd aw4)
            end
        end
  end.

(** The refresh jobs that fire inside an enabled Stop whose timer is
    running: those of the first window, and those of the second when there
    is one (a positive total and a saved dialog). *)
Definition modal_ticks (now : Q) (user : DialogInput) (n1 n2 : nat)
    (a : TimeTrackerApp) : nat :=
  match state a with
  | idle => 0
  | _ =>
      (n1 + match user with
            | Save _ _ _ => if Z.ltb 0 (total_sec now a) then n2 else 0
            | Cancel => 0
            end)%nat
  end.

(** What reaches the application: a button press, the space bar, the
    toolkit firing the refresh job that [after] scheduled, which calls
    [_tick], or a Stop during whose modal windows refresh jobs fire.  The
    toolkit fires only a job that is pending.  [Button (Stop ...)] is the
    Stop during which none fires. *)
Inductive Input :=
| Button (e : Event)
| Space (now tick_clock : Q)
| Timer (clock : Q)
| ModalStop (now : Q) (user : DialogInput) (uuid4 : str) (io : IoOutcome)
    (n1 n2 : nat).

Definition input_step (isoformat local_date : Q -> str) (i : Input)
    (aw : TimeTrackerApp * World) : TimeTrackerApp * World :=
  match i with
  | Button e => step isoformat local_date e aw
  | Space now tick_clock => _toggle_play_pause now tick_clock (fst aw) (snd aw)
  | Timer clock =>
      match _tick_job (fst aw) with
      | Some _ => _tick clock (fst aw) (snd aw)
      | None => aw
      end
  | ModalStop now user uuid4 io n1 n2 =>
      on_stop_modal isoformat local_date now user uuid4 io n1 n2 (fst aw) (snd aw)
  end.

Definition input_run (isoformat local_date : Q -> str) (tr : list Input)
    (aw : TimeTrackerApp * World) : TimeTrackerApp * World :=
  fold_left (fun aw i => input_step isoformat local_date i aw) tr aw.

(** The refresh jobs the toolkit has fired along a run. *)
Fixpoint fired (isoformat local_date : Q -> str) (tr : list Input)
    (aw : TimeTrackerApp * World) : nat :=
  match tr with
  | [] => O
  | i :: tr' =>
      (match i, _tick_job (fst aw) with
       | Timer _, Some _ => 1
       | ModalStop now user _ _ n1 n2, Some _ => modal_ticks now user n1 n2 (fst aw)
       | _, _ => 0
       end + fired isoformat local_date tr' (input_step isoformat local_date i aw))%nat
  end.

(** The texts that a trace of toolkit calls puts on the label. *)
Fixpoint labels (calls : list UiCall) : list str :=
  match calls with
  | [] => []
  | LabelConfig t :: calls' => t :: labels calls'
  | _ :: calls' => labels calls'
  end.

(** Whether a refresh job is waiting to be fired. *)
Definition pending (a : TimeTrackerApp) : nat :=
  match _tick_job a with Some _ => 1 | None => 0 end.

(** The button states of the last [_update_buttons] in a trace of toolkit
    calls. *)
Fixpoint last_buttons (calls : list UiCall) : option (bool * bool * bool) :=
  match calls with
  | [] => None
  | c :: calls' =>
      match last_buttons calls' with
      | Some b => Some b
      | None =>
          match c with
          | ButtonStates p q r => Some (p, q, r)
          | _ => None
          end
      end
  end.

(** The three buttons as the handlers' guards see them. *)
Definition guards (a : TimeTrackerApp) : bool * bool * bool :=
  (enabled (Play 0 0) a, enabled (Pause 0) a, enabled (Stop 0 Cancel [] IoOk) a).

(** A session at rest holds nothing; a live one has its start instant and
    the refresh timer. *)
Definition session_tidy (a : TimeTrackerApp) : Prop :=
  match state a with
  | idle =>
      accum_seconds a = 0 /\ session_start a = None /\ session_end a = None
  | _ => session_start a <> None /\ _tick_job a <> None
  end.

(** The clock reading an event carries. *)
Definition event_time (e : Event) : Q :=
  match e with
  | Play now _ => now
  | Pause now => now
  | Stop now _ _ _ => now
  end.

(** The readings of a run never go back, starting from [t]. *)
Fixpoint clock_monotone (t : Q) (tr : list Event) : bool :=
  match tr with
  | [] => true
  | e :: tr' => Qle_bool t (event_time e) && clock_monotone (event_time e) tr'
  end.

Definition last_time (t : Q) (tr : list Event) : Q :=
  fold_left (fun _ e => event_time e) tr t.

(** ** Reading a rendered duration back *)

Fixpoint split_on (sep : N) (cur : str) (s : str) : list str :=
  match s with
  | [] => [rev cur]
  | c :: s' =>
      if (c =? sep)%N then rev cur :: split_on sep [] s'
      else split_on sep (c :: cur) s'
  end.

(** The seconds that a text [H:MM:SS] stands for. *)
Definition hms_seconds (t : str) : option Z :=
  match split_on 58 [] t with
  | [h; m; s] =>
      match Z_of_str h, Z_of_str m, Z_of_str s with
      | Some h, Some m, Some s => Some (h * 3600 + m * 60 + s)
      | _, _, _ => None
      end
  | _ => None
  end.

(** The text of a value of the structured record, as a tabular cell would
    show it. *)
Definition jvalue_text (v : JValue) : str :=
  match v with
  | JStr s => s
  | JInt n => str_of_Z n
  end.

(** No white space at either end. *)
Definition trimmed (s : str) : Prop :=
  match s with
  | [] => True
  | c :: _ => is_space c = false /\ is_space (last s c) = false
  end.

(** The world [w'] holds what [w] held, followed by the records [rj] and the
    rows [rc], and a file that existed still exists. *)
Definition grows_by (w w' : World) (rj : list JObject) (rc : list str) : Prop :=
  lines (jsonl_file w') = lines (jsonl_file w) ++ rj /\
  lines (csv_file w') = lines (csv_file w) ++ rc /\
  (jsonl_file w <> None -> jsonl_file w' <> None) /\
  (csv_file w <> None -> csv_file w' <> None).

(** The largest double below one, [1 - 2^-53].  A difference of two
    readings that is at most this much is still below one after it has been
    rounded to a double, rounding being monotone. *)
Definition below_one : Q := 1 - (1 # 9007199254740992).

(** On a clock that does not go back, at reading [t]: the accumulated
    seconds are not negative and do not exceed the time elapsed since the
    session started (up to the resume instant while running). *)
Definition on_clock (t : Q) (a : TimeTrackerApp) : Prop :=
  0 <= accum_seconds a /\
  match state a with
  | idle => True
  | running =>
      exists start r,
        session_start a = Some start /\ _last_resume_at a = Some r /\
        (r <= t)%Q /\ (inject_Z (accum_seconds a) <= r - start)%Q
  | paused =>
      exists start,
        session_start a = Some start /\
        (inject_Z (accum_seconds a) <= t - start)%Q
  end.


(** * Properties *)

(** ** Decimal cells and tabular rows read back *)

Lemma py_inv (s : string) :
  string_of_list_ascii (map ascii_of_N (py s)) = s.
Proof.
  unfold py. rewrite map_map.
  rewrite (map_ext _ (fun a => a)) by apply ascii_N_embedding.
  rewrite map_id. apply string_of_list_ascii_of_string.
Qed.

Lemma to_int_proper (z : Z) :
  Z.to_int z <> Decimal.Pos Decimal.Nil /\ Z.to_int z <> Decimal.Neg Decimal.Nil.
Proof.
  destruct z as [|p|p]; simpl; split; try discriminate;
    intro H; injection H as H; revert H; apply DecimalPos.Unsigned.to_uint_nonnil.
Qed.

Lemma Z_of_str_of_Z (z : Z) : Z_of_str (str_of_Z z) = Some z.
Proof.
  unfold Z_of_str, str_of_Z. rewrite py_inv.
  destruct (to_int_proper z) as [Hp Hn].
  rewrite NilZero.isi by assumption.
  simpl. now rewrite DecimalZ.of_to.
Qed.

Module CsvFacts.
Import Csv.

Lemma special_false (c : N) :
  special c = false ->
  (c =? quotechar)%N = false /\ (c =? delimiter)%N = false /\
  (c =? CR)%N = false /\ (c =? LF)%N = false.
Proof.
  unfold special. intro H.
  repeat (apply orb_false_iff in H; destruct H as [H ?]). auto.
Qed.

Lemma parse_plain (f : str) : forall cur acc rest,
  existsb special f = false ->
  parse InField cur acc (f ++ rest) = parse InField (rev f ++ cur) acc rest.
Proof.
  induction f as [|c f IH]; intros cur acc rest H; [reflexivity|].
  simpl in H. apply orb_false_iff in H. destruct H as [Hc Hf].
  apply special_false in Hc. destruct Hc as (Hq & Hd & Hr & Hl).
  cbn [app parse rev]. rewrite Hd, Hr, Hl.
  rewrite IH by assumption. now rewrite <- app_assoc.
Qed.

Lemma parse_quoted (f : str) : forall cur acc rest,
  parse InQuoted cur acc (escape f ++ quotechar :: rest)
  = parse QuoteInQuoted (rev f ++ cur) acc rest.
Proof.
  induction f as [|c f IH]; intros cur acc rest.
  - cbn [escape flat_map app parse rev]. now rewrite N.eqb_refl.
  - unfold escape in *. cbn [flat_map rev].
    destruct (c =? quotechar)%N eqn:Hc.
    + apply N.eqb_eq in Hc. subst c.
      cbn [app parse]. rewrite N.eqb_refl.
      cbn [parse]. rewrite ?N.eqb_refl.
      rewrite IH. now rewrite <- app_assoc.
    + cbn [app parse]. rewrite Hc.
      rewrite IH. now rewrite <- app_assoc.
Qed.

(** A field is read the same at the start of a record and after a
    delimiter, unless it starts with a line break. *)
Lemma parse_start_record (c : N) (l : str) (acc : list str) :
  (c =? CR)%N = false -> (c =? LF)%N = false ->
  parse StartRecord [] acc (c :: l) = parse StartField [] acc (c :: l).
Proof. intros Hr Hl. cbn [parse]. now rewrite Hr, Hl. Qed.

(** One written field followed by a delimiter is read as that field. *)
Lemma parse_field_delimiter (f : str) (acc : list str) (rest : str) :
  parse StartField [] acc (field f ++ delimiter :: rest)
  = parse StartField [] (acc ++ [f]) rest.
Proof.
  unfold field. destruct (existsb special f) eqn:Hs.
  - change (parse StartField [] acc ((quotechar :: escape f ++ [quotechar])
                                      ++ delimiter :: rest))
      with (parse InQuoted [] acc ((escape f ++ [quotechar]) ++ delimiter :: rest)).
    rewrite <- app_assoc. cbn [app]. rewrite parse_quoted.
    rewrite app_nil_r.
    change (parse QuoteInQuoted (rev f) acc (delimiter :: rest))
      with (parse StartField [] (acc ++ [rev (rev f)]) rest).
    now rewrite rev_involutive.
  - destruct f as [|c f].
    + reflexivity.
    + simpl in Hs. apply orb_false_iff in Hs. destruct Hs as [Hc Hf].
      apply special_false in Hc. destruct Hc as (Hq & Hd & Hr & Hl).
      cbn [app parse]. rewrite Hq, Hd, Hr, Hl.
      rewrite parse_plain by assumption.
      change (parse InField (rev f ++ [c]) acc (delimiter :: rest))
        with (parse StartField [] (acc ++ [rev (rev f ++ [c])]) rest).
      rewrite rev_app_distr, rev_involutive. reflexivity.
Qed.

(** The last written field, followed by the line terminator. *)
Lemma parse_field_last (f : str) (acc : list str) :
  parse StartField [] acc (field f ++ [CR; LF]) = Some (acc ++ [f]).
Proof.
  unfold field. destruct (existsb special f) eqn:Hs.
  - change (parse StartField [] acc ((quotechar :: escape f ++ [quotechar])
                                      ++ [CR; LF]))
      with (parse InQuoted [] acc ((escape f ++ [quotechar]) ++ [CR; LF])).
    rewrite <- app_assoc. cbn [app]. rewrite parse_quoted.
    rewrite app_nil_r.
    change (parse QuoteInQuoted (rev f) acc [CR; LF])
      with (Some (acc ++ [rev (rev f)])).
    now rewrite rev_involutive.
  - destruct f as [|c f].
    + reflexivity.
    + simpl in Hs. apply orb_false_iff in Hs. destruct Hs as [Hc Hf].
      apply special_false in Hc. destruct Hc as (Hq & Hd & Hr & Hl).
      cbn [app parse]. rewrite Hq, Hd, Hr, Hl.
      rewrite parse_plain by assumption.
      change (parse InField (rev f ++ [c]) acc [CR; LF])
        with (Some (acc ++ [rev (rev f ++ [c])])).
      rewrite rev_app_distr, rev_involutive. reflexivity.
Qed.

Lemma parse_fields (fields : list str) : forall acc,
  fields <> [] ->
  parse StartField [] acc (join [delimiter] (map field fields) ++ [CR; LF])
  = Some (acc ++ fields).
Proof.
  induction fields as [|f fields IH]; intros acc Hne; [congruence|].
  destruct fields as [|g fields].
  - cbn [map join]. apply parse_field_last.
  - change (join [delimiter] (map field (f :: g :: fields)))
      with (field f ++ [delimiter] ++ join [delimiter] (map field (g :: fields))).
    rewrite <- !app_assoc. cbn [app].
    rewrite parse_field_delimiter.
    rewrite IH by discriminate. now rewrite <- app_assoc.
Qed.

(** The text of a row of at least one field, the row of one empty field
    apart, does not begin with a line break. *)
Lemma written_fields_start (fields : list str) :
  fields <> [] -> fields <> [[]] ->
  exists c l,
    join [delimiter] (map field fields) ++ [CR; LF] = c :: l /\
    (c =? CR)%N = false /\ (c =? LF)%N = false.
Proof.
  intros Hne Hone. destruct fields as [|f fields]; [congruence|].
  assert (Hf : forall rest, f <> [] -> exists c l,
             field f ++ rest = c :: l /\
             (c =? CR)%N = false /\ (c =? LF)%N = false).
  { intros rest Hfne. unfold field. destruct (existsb special f) eqn:Hs.
    - eexists; eexists. split; [reflexivity|]. split; reflexivity.
    - destruct f as [|c f]; [congruence|].
      simpl in Hs. apply orb_false_iff in Hs. destruct Hs as [Hc _].
      apply special_false in Hc. destruct Hc as (_ & _ & Hr & Hl).
      exists c, (f ++ rest). auto. }
  destruct fields as [|g fields].
  - cbn [map join]. apply Hf. intros ->. now apply Hone.
  - change (join [delimiter] (map field (f :: g :: fields)))
      with (field f ++ [delimiter] ++ join [delimiter] (map field (g :: fields))).
    rewrite <- !app_assoc.
    destruct f as [|c f]; [|apply Hf; discriminate].
    eexists; eexists. split; [reflexivity|]. split; reflexivity.
Qed.

(** A written row of at least one cell is read back as the texts of its
    cells. *)
Lemma readrow_writerow (row : list Cell) :
  row <> [] -> readrow (writerow row) = Some (map cell_text row).
Proof.
  intro Hne. unfold readrow, writerow.
  assert (Hm : map cell_text row <> []) by (destruct row; [congruence|discriminate]).
  destruct (map cell_text row) as [|f fs] eqn:E; [congruence|].
  destruct f as [|c f]; destruct fs as [|g fs]; try reflexivity.
  all: match goal with |- parse _ _ _ (join _ (map field ?fields) ++ _) = _ =>
         destruct (written_fields_start fields) as (c0 & l0 & Ht & Hr & Hl);
           [discriminate | discriminate |];
         rewrite Ht, parse_start_record by assumption;
         rewrite <- Ht; apply (parse_fields fields []); discriminate
       end.
Qed.


End CsvFacts.

(** The row written for an entry is read back as that entry. *)
Lemma entry_of_row_to_row (e : TimeEntry) :
  entry_of_row (Csv.writerow (to_row e)) = Some e.
Proof.
  unfold entry_of_row. rewrite CsvFacts.readrow_writerow by discriminate.
  destruct e. cbn [to_row map Csv.cell_text entry_of_fields
    id date start_iso end_iso duration_seconds duration_hms ticket_url note status].
  now rewrite Z_of_str_of_Z.
Qed.


(** ** What the helpers leave alone *)

Arguments fmt_hms : simpl never.
Arguments py : simpl never.
Arguments Csv.writerow : simpl never.

Lemma start_tick_app (clock : Q) (a : TimeTrackerApp) (w : World) :
  fst (start_tick clock a w)
  = set_tick_job
      (match _tick_job a with None => Some (after_count w) | Some j => Some j end) a.
Proof. unfold start_tick. destruct a as [st ss se ac [j|] lr]; reflexivity. Qed.

Lemma start_tick_files (clock : Q) (a : TimeTrackerApp) (w : World) :
  jsonl_file (snd (start_tick clock a w)) = jsonl_file w /\
  csv_file (snd (start_tick clock a w)) = csv_file w.
Proof. unfold start_tick. destruct (_tick_job a); split; reflexivity. Qed.

Lemma reset_session_app (a : TimeTrackerApp) (w : World) :
  fst (_reset_session a w)
  = {| state := idle; session_start := None; session_end := None;
       accum_seconds := 0;
       _tick_job :=
         match _tick_job a with None => Some (after_count w) | Some j => Some j end;
       _last_resume_at := _last_resume_at a |}.
Proof. unfold _reset_session. rewrite start_tick_app. reflexivity. Qed.

Lemma reset_session_files (a : TimeTrackerApp) (w : World) :
  jsonl_file (snd (_reset_session a w)) = jsonl_file w /\
  csv_file (snd (_reset_session a w)) = csv_file w.
Proof.
  unfold _reset_session.
  destruct (start_tick_files 0%Q
    (set_state idle (set_session_end None (set_session_start None
       (set_accum_seconds 0 a)))) (_update_buttons
    (set_state idle (set_session_end None (set_session_start None
       (set_accum_seconds 0 a)))) w)) as [-> ->].
  split; reflexivity.
Qed.

(** Name the two file equations of the [_reset_session] in the goal. *)
Ltac reset_files Hj Hc :=
  match goal with
  | |- context [_reset_session ?x ?y] =>
      destruct (reset_session_files x y) as [Hj Hc]
  end.

(** The toolkit calls of [_reset_session]: the buttons, and the first tick
    if the refresh timer was never started. *)
Lemma reset_session_ui (a : TimeTrackerApp) (w : World) :
  ui (snd (_reset_session a w))
  = ui w ++ ButtonStates true false false ::
      match _tick_job a with
      | None => [LabelConfig (fmt_hms 0); After REFRESH_MS (after_count w)]
      | Some _ => []
      end.
Proof.
  unfold _reset_session, start_tick.
  destruct a as [st ss se ac [j|] lr]; cbn.
  - reflexivity.
  - rewrite <- !app_assoc. reflexivity.
Qed.

Lemma dict_get_save (l n s : str) :
  dict_get [(py "ticket_url", strip l); (py "note", strip n);
            (py "status", str_or (strip s) (py "other"))] (py "ticket_url") []
  = strip l /\
  dict_get [(py "ticket_url", strip l); (py "note", strip n);
            (py "status", str_or (strip s) (py "other"))] (py "note") []
  = strip n /\
  dict_get [(py "ticket_url", strip l); (py "note", strip n);
            (py "status", str_or (strip s) (py "other"))] (py "status") (py "other")
  = str_or (strip s) (py "other").
Proof. repeat split; reflexivity. Qed.

Section Claims.

Variable isoformat : Q -> str.
Variable local_date : Q -> str.

Local Abbreviation on_stop' := (on_stop isoformat local_date).
Local Abbreviation step' := (step isoformat local_date).
Local Abbreviation run' := (run isoformat local_date).
Local Abbreviation respects' := (respects isoformat local_date).
Local Abbreviation build_entry' := (build_entry isoformat local_date).

(** [on_stop] past its first guard. *)
Lemma on_stop_active now user uuid4 io a w :
  state a <> idle ->
  on_stop' now user uuid4 io a w =
    let a1 := stop_finalize now a in
    let w1 := _update_buttons a1 w in
    if total_sec now a <=? 0 then
      _reset_session a1
        (ui_call (ShowInfo APP_TITLE (py "Nothing to save (duration is 0s).")) w1)
    else
      let w2 := ui_call (OpenDialog (fmt_hms (total_sec now a))) w1 in
      match truthy (dialog_result user) with
      | None => (set_state paused a1, _update_buttons (set_state paused a1) w2)
      | Some details =>
          match write_logs io (build_entry' now a1 details uuid4) w2 with
          | (w3, Some e) =>
              (set_state paused a1,
               _update_buttons (set_state paused a1)
                 (ui_call (ShowError APP_TITLE (py "Failed to write logs: " ++ e)) w3))
          | (w3, None) =>
              _reset_session a1 (ui_call (ShowInfo APP_TITLE (py "Entry saved.")) w3)
          end
      end.
Proof.
  intro H. unfold on_stop, total_sec.
  destruct (state a) eqn:E; [congruence| |]; reflexivity.
Qed.

(** *** Claim C7 *)

(** C7: a handler invoked while its button is disabled (Play while running,
    Pause while not running, Stop while idle) returns the application and
    the world exactly as they were: no field changes, no file is written,
    no toolkit call (prompt, notification, button update) is made. *)
Theorem C7_disabled_handler_is_noop (e : Event) (a : TimeTrackerApp) (w : World) :
  enabled e a = false -> step' e (a, w) = (a, w).
Proof.
  destruct e as [now tc|now|now user uuid4 io]; cbn [step fst snd];
    unfold enabled, on_play, on_pause, on_stop;
    destruct (state a); intro H; try discriminate H; reflexivity.
Qed.

(** *** Claim C9 *)

(** C9: the invariant "a resume instant is set exactly in the running
    state" holds after [__init__] and is preserved by Play, Pause and Stop
    whatever the clock, the user and the file system do (all branches of
    Stop included). *)
Theorem C9_resume_instant_iff_running :
  (forall w, resume_iff_running (fst (TimeTrackerApp_init w))) /\
  (forall e a w, resume_iff_running a -> resume_iff_running (fst (step' e (a, w)))).
Proof.
  split.
  - intro w. unfold resume_iff_running. cbn. split; [congruence|discriminate].
  - intros e a w Hinv. unfold resume_iff_running in *.
    destruct e as [now tc|now|now user uuid4 io]; cbn [step fst snd].
    + unfold on_play. destruct (state a) eqn:E.
      * rewrite (surjective_pairing (start_tick _ _ _)). cbn [fst].
        rewrite start_tick_app. cbn. split; [reflexivity|discriminate].
      * cbn [fst]. rewrite E. exact Hinv.
      * rewrite (surjective_pairing (start_tick _ _ _)). cbn [fst].
        rewrite start_tick_app. cbn. split; [reflexivity|discriminate].
    + unfold on_pause. destruct (state a) eqn:E; cbn [fst].
      * rewrite E. exact Hinv.
      * cbn. split; [congruence|discriminate].
      * rewrite E. exact Hinv.
    + destruct (state a) eqn:E.
      { unfold on_stop. rewrite E. cbn [fst]. rewrite E. exact Hinv. }
      all: rewrite on_stop_active by congruence; cbv zeta.
      all: destruct (total_sec now a <=? 0);
             [rewrite reset_session_app; cbn; split; [congruence|discriminate]|].
      all: destruct (truthy (dialog_result user)) as [d|];
             [|cbn; split; [congruence|discriminate]].
      all: destruct (write_logs io _ _) as [w3 [err|]];
             [|rewrite reset_session_app]; cbn; split; congruence || discriminate.
Qed.

(** *** Claim C6 *)

(** C6: a Stop whose total is zero or negative writes to neither log and
    opens no dialog (so no entry is built); when the button is enabled
    (state running or paused) the toolkit calls it makes are the button
    update, the notice "Nothing to save (duration is 0s)." and the calls of
    the reset, and the session is reset: idle, zero accumulation, no start,
    end or resume instant. *)
Theorem C6_stop_with_nothing_to_save now user uuid4 io a w :
  total_sec now a <= 0 ->
  let a' := fst (on_stop' now user uuid4 io a w) in
  let w' := snd (on_stop' now user uuid4 io a w) in
  jsonl_file w' = jsonl_file w /\ csv_file w' = csv_file w /\
  (forall hms, ~ In (OpenDialog hms) (skipn (List.length (ui w)) (ui w'))) /\
  (state a <> idle ->
     ui w' = ui w ++
       [ButtonStates true false false;
        ShowInfo APP_TITLE (py "Nothing to save (duration is 0s).");
        ButtonStates true false false] ++
       match _tick_job a with
       | None => [LabelConfig (fmt_hms 0); After REFRESH_MS (after_count w)]
       | Some _ => []
       end /\
     state a' = idle /\ accum_seconds a' = 0 /\ session_start a' = None /\
     session_end a' = None /\ _last_resume_at a' = None).
Proof.
  intros Htot a' w'. subst a' w'.
  destruct (state a) eqn:E.
  { unfold on_stop. rewrite E. cbn [fst snd].
    repeat split; try reflexivity; try congruence.
    intros hms. rewrite skipn_all. intros []. }
  all: rewrite on_stop_active by congruence; cbv zeta.
  all: apply Z.leb_le in Htot; rewrite Htot.
  all: reset_files Hj Hc.
  all: rewrite Hj, Hc, reset_session_app, reset_session_ui.
  all: cbn [ui ui_call _update_buttons stop_finalize set_session_end set_state
            set_last_resume_at set_accum_seconds state jsonl_file csv_file
            _tick_job accum_seconds session_start session_end _last_resume_at
            after_count].
  all: rewrite <- !app_assoc; cbn [app].
  all: repeat split; try reflexivity.
  all: intros hms; rewrite skipn_app, skipn_all, Nat.sub_diag; cbn [app skipn].
  all: destruct (_tick_job a); cbn; intuition discriminate.
Qed.

(** *** The rollback paths of Stop *)

Lemma finalize_fields now a :
  state (stop_finalize now a) = idle /\
  session_start (stop_finalize now a) = session_start a /\
  session_end (stop_finalize now a) = Some now /\
  accum_seconds (stop_finalize now a) = fold_segment now a /\
  _tick_job (stop_finalize now a) = _tick_job a /\
  _last_resume_at (stop_finalize now a) = None.
Proof. repeat split; reflexivity. Qed.

Lemma total_sec_paused now a :
  state a = paused -> total_sec now a = accum_seconds a.
Proof. intro H. unfold total_sec, stop_finalize, fold_segment. cbn. now rewrite H. Qed.

(** Cancelling the dialog: only [state] is set after the finalize step, and
    the toolkit is called for the buttons and the dialog. *)
Lemma on_stop_cancel now uuid4 io a w :
  state a <> idle -> 0 < total_sec now a ->
  on_stop' now Cancel uuid4 io a w
  = (set_state paused (stop_finalize now a),
     {| jsonl_file := jsonl_file w; csv_file := csv_file w;
        ui := ui w ++ [ButtonStates true false false;
                       OpenDialog (fmt_hms (total_sec now a));
                       ButtonStates true false true];
        after_count := after_count w |}).
Proof.
  intros Hst Htot. rewrite on_stop_active by assumption. cbv zeta.
  apply Z.leb_gt in Htot. rewrite Htot.
  unfold _update_buttons, ui_call. cbn.
  rewrite <- ?app_assoc. reflexivity.
Qed.

(** An append that raises: only [state] is set after the finalize step; the
    structured log keeps the record when it is the tabular append that
    raised. *)
Lemma on_stop_append_raises now l n s uuid4 io e a w :
  state a <> idle -> 0 < total_sec now a ->
  io = JsonlRaises e \/ io = CsvRaises e ->
  on_stop' now (Save l n s) uuid4 io a w
  = (set_state paused (stop_finalize now a),
     {| jsonl_file :=
          match io with
          | CsvRaises _ =>
              Some (lines (jsonl_file w) ++
                    [asdict (build_entry' now (stop_finalize now a)
                       [(py "ticket_url", strip l); (py "note", strip n);
                        (py "status", str_or (strip s) (py "other"))] uuid4)])
          | _ => jsonl_file w
          end;
        csv_file := csv_file w;
        ui := ui w ++ [ButtonStates true false false;
                       OpenDialog (fmt_hms (total_sec now a));
                       ShowError APP_TITLE (py "Failed to write logs: " ++ e);
                       ButtonStates true false true];
        after_count := after_count w |}).
Proof.
  intros Hst Htot Hio. rewrite on_stop_active by assumption. cbv zeta.
  apply Z.leb_gt in Htot. rewrite Htot.
  destruct Hio as [-> | ->]; unfold _update_buttons, ui_call; cbn;
    rewrite <- ?app_assoc; reflexivity.
Qed.

(** Both appends succeed. *)
Lemma on_stop_saved now l n s uuid4 a w :
  state a <> idle -> 0 < total_sec now a ->
  let e := build_entry' now (stop_finalize now a)
             [(py "ticket_url", strip l); (py "note", strip n);
              (py "status", str_or (strip s) (py "other"))] uuid4 in
  on_stop' now (Save l n s) uuid4 IoOk a w
  = _reset_session (stop_finalize now a)
      {| jsonl_file := Some (lines (jsonl_file w) ++ [asdict e]);
         csv_file := Some (lines (csv_file w) ++ [Csv.writerow (to_row e)]);
         ui := ui w ++ [ButtonStates true false false;
                        OpenDialog (fmt_hms (total_sec now a));
                        ShowInfo APP_TITLE (py "Entry saved.")];
         after_count := after_count w |}.
Proof.
  intros Hst Htot e. rewrite on_stop_active by assumption. cbv zeta.
  apply Z.leb_gt in Htot. rewrite Htot.
  unfold _update_buttons, ui_call. cbn.
  rewrite <- ?app_assoc. reflexivity.
Qed.

(** The files after a Stop that saved its entry. *)
Lemma on_stop_saved_files now l n s uuid4 a w :
  state a <> idle -> 0 < total_sec now a ->
  let e := build_entry' now (stop_finalize now a)
             [(py "ticket_url", strip l); (py "note", strip n);
              (py "status", str_or (strip s) (py "other"))] uuid4 in
  let w' := snd (on_stop' now (Save l n s) uuid4 IoOk a w) in
  jsonl_file w' = Some (lines (jsonl_file w) ++ [asdict e]) /\
  csv_file w' = Some (lines (csv_file w) ++ [Csv.writerow (to_row e)]).
Proof.
  intros Hst Htot e w'. subst e w'.
  rewrite on_stop_saved by assumption. cbv zeta.
  reset_files Hj Hc.
  rewrite Hj, Hc. split; reflexivity.
Qed.

(** A Stop with nothing to save leaves both files as they were. *)
Lemma on_stop_nothing_files now user uuid4 io a w :
  total_sec now a <= 0 ->
  jsonl_file (snd (on_stop' now user uuid4 io a w)) = jsonl_file w /\
  csv_file (snd (on_stop' now user uuid4 io a w)) = csv_file w.
Proof.
  intro Htot. destruct (state a) eqn:E.
  { unfold on_stop. rewrite E. split; reflexivity. }
  all: rewrite on_stop_active by congruence; cbv zeta;
       apply Z.leb_le in Htot; rewrite Htot;
       reset_files Hj Hc;
       rewrite Hj, Hc; split; reflexivity.
Qed.

(** *** Claim C4 *)

(** C4: a Stop that finds a positive accumulated total (the accumulated
    seconds once a running segment has been folded in, which is the value
    the dialog shows) and whose dialog is cancelled ends in the paused
    state with the accumulated seconds still at that total, not reset;
    from the paused state that is the value they had when Stop was
    invoked.  Neither log is touched. *)
Theorem C4_cancelled_stop_keeps_elapsed now uuid4 io a w :
  state a <> idle -> 0 < total_sec now a ->
  let a' := fst (on_stop' now Cancel uuid4 io a w) in
  let w' := snd (on_stop' now Cancel uuid4 io a w) in
  state a' = paused /\
  accum_seconds a' = total_sec now a /\
  (state a = paused -> accum_seconds a' = accum_seconds a) /\
  jsonl_file w' = jsonl_file w /\ csv_file w' = csv_file w.
Proof.
  intros Hst Htot a' w'. subst a' w'.
  rewrite on_stop_cancel by assumption. cbn [fst snd].
  repeat split; try reflexivity.
  intro Hp. cbn. unfold fold_segment. now rewrite Hp.
Qed.

(** *** Claim C3 *)

(** C3: when an append raises during a Stop with positive total, the
    exception is caught by the handler, which returns normally: the error
    is shown to the user ("Failed to write logs: ..."), the state is
    paused, not idle, and the accumulated seconds stay at the total of this
    Stop (from the paused state: at the value they had), so that Stop is
    enabled again and a second Stop finds the same total. *)
Theorem C3_append_failure_rolls_back now l n s uuid4 io a w :
  state a <> idle -> 0 < total_sec now a -> io <> IoOk ->
  let a' := fst (on_stop' now (Save l n s) uuid4 io a w) in
  let w' := snd (on_stop' now (Save l n s) uuid4 io a w) in
  (exists e, (io = JsonlRaises e \/ io = CsvRaises e) /\
     ui w' = ui w ++ [ButtonStates true false false;
                      OpenDialog (fmt_hms (total_sec now a));
                      ShowError APP_TITLE (py "Failed to write logs: " ++ e);
                      ButtonStates true false true]) /\
  state a' = paused /\
  accum_seconds a' = total_sec now a /\
  (state a = paused -> accum_seconds a' = accum_seconds a) /\
  (forall now' user' uuid4' io', enabled (Stop now' user' uuid4' io') a' = true) /\
  (forall now', total_sec now' a' = total_sec now a).
Proof.
  intros Hst Htot Hio a' w'. subst a' w'.
  assert (He : exists e, io = JsonlRaises e \/ io = CsvRaises e).
  { destruct io as [|e|e]; [congruence| |]; exists e; auto. }
  destruct He as [e He].
  rewrite (on_stop_append_raises now l n s uuid4 io e a w) by assumption.
  cbn [fst snd ui].
  split; [exists e; split; [assumption|reflexivity]|].
  repeat split; try reflexivity.
  intro Hp. cbn. unfold fold_segment. now rewrite Hp.
Qed.

(** *** Claim C8 *)

(** C8: a Stop with positive total whose dialog is saved and whose appends
    both succeed adds exactly one record to the structured log and exactly
    one row to the tabular log, both made from one and the same entry (its
    identifier is the one just generated, the row reads back as the
    record's entry), and then leaves the session idle with zero accumulated
    seconds. *)
Theorem C8_successful_stop_appends_one_pair now l n s uuid4 a w :
  state a <> idle -> 0 < total_sec now a ->
  let a' := fst (on_stop' now (Save l n s) uuid4 IoOk a w) in
  let w' := snd (on_stop' now (Save l n s) uuid4 IoOk a w) in
  exists e : TimeEntry,
    jsonl_file w' = Some (lines (jsonl_file w) ++ [asdict e]) /\
    csv_file w' = Some (lines (csv_file w) ++ [Csv.writerow (to_row e)]) /\
    entry_of_row (Csv.writerow (to_row e)) = Some e /\
    id e = uuid4 /\
    duration_seconds e = total_sec now a /\
    duration_hms e = fmt_hms (total_sec now a) /\
    ticket_url e = strip l /\ note e = strip n /\
    status e = str_or (strip s) (py "other") /\
    accum_seconds a' = 0 /\ state a' = idle.
Proof.
  intros Hst Htot a' w'. subst a' w'.
  rewrite on_stop_saved by assumption. cbv zeta.
  match goal with |- context [asdict ?x] => exists x end.
  reset_files Hj Hc.
  rewrite Hj, Hc, reset_session_app. cbn [jsonl_file csv_file].
  split; [reflexivity|]. split; [reflexivity|].
  split; [apply entry_of_row_to_row|].
  unfold build_entry.
  cbn [id duration_seconds duration_hms ticket_url note status accum_seconds state].
  destruct (dict_get_save l n s) as (-> & -> & ->).
  repeat split; reflexivity.
Qed.

(** *** Claim C1 *)

Lemma sum_whole_seconds_app segs seg :
  SpecSession.sum_whole_seconds (segs ++ [seg])
  = SpecSession.sum_whole_seconds segs + SpecSession.whole_seconds seg.
Proof.
  unfold SpecSession.sum_whole_seconds.
  induction segs as [|x segs IH]; cbn [app map fold_right]; [lia|].
  rewrite IH. lia.
Qed.

(** The total a Stop computes is the sum over the segments closed so far,
    the running one included. *)
Lemma total_sec_refines now a s :
  refines a s ->
  total_sec now a
  = SpecSession.sum_whole_seconds (SpecSession.segments (SpecSession.close now s)).
Proof.
  intros (Hs & Hr & Ha).
  unfold total_sec, stop_finalize, fold_segment, SpecSession.close.
  cbn [accum_seconds set_session_end set_state set_last_resume_at set_accum_seconds].
  rewrite <- Hs, <- Hr.
  destruct (state a); try exact Ha.
  destruct (_last_resume_at a) as [r|]; cbn [SpecSession.segments]; [|exact Ha].
  rewrite sum_whole_seconds_app, Ha. reflexivity.
Qed.

Lemma refines_init w : refines (fst (TimeTrackerApp_init w)) SpecSession.initial.
Proof. repeat split. Qed.

Lemma step_refines e a w s :
  refines a s -> refines (fst (step' e (a, w))) (SpecSession.step e s).
Proof.
  intros Href. pose proof Href as (Hs & Hr & Ha).
  destruct e as [now tc|now|now user uuid4 io]; cbn [step fst snd SpecSession.step].
  - unfold on_play. rewrite <- Hs. destruct (state a) eqn:E.
    + rewrite (surjective_pairing (start_tick _ _ _)). cbn [fst].
      rewrite start_tick_app. repeat split.
    + exact Href.
    + rewrite (surjective_pairing (start_tick _ _ _)). cbn [fst].
      rewrite start_tick_app. repeat split. exact Ha.
  - unfold on_pause. rewrite <- Hs. destruct (state a) eqn:E; try exact Href.
    pose proof (total_sec_refines now a s Href) as Ht.
    unfold total_sec, stop_finalize, fold_segment in Ht.
    cbn [accum_seconds set_session_end set_state set_last_resume_at
         set_accum_seconds] in Ht.
    rewrite E in Ht.
    destruct (_last_resume_at a) as [r|]; repeat split; exact Ht.
  - pose proof (total_sec_refines now a s Href) as Ht.
    rewrite <- Hs. destruct (state a) eqn:E.
    { unfold on_stop. rewrite E. exact Href. }
    all: assert (Hst : state a <> idle) by congruence.
    all: rewrite <- Ht.
    all: destruct (Z.leb_spec (total_sec now a) 0) as [Hle | Hgt].
    all: try (rewrite on_stop_active by assumption; cbv zeta;
              apply Z.leb_le in Hle; rewrite Hle, reset_session_app;
              repeat split).
    all: destruct user as [l n st|]; [destruct io as [|err|err]|].
    all: try (rewrite on_stop_saved by assumption; cbv zeta;
              rewrite reset_session_app; repeat split).
    all: try (rewrite (on_stop_append_raises now l n st uuid4 _ err a w) by auto;
              repeat split; exact Ht).
    all: rewrite on_stop_cancel by assumption; repeat split; exact Ht.
Qed.

Lemma step_eta e (aw : TimeTrackerApp * World) :
  step' e aw = step' e (fst aw, snd aw).
Proof. destruct aw; reflexivity. Qed.

Lemma run_snoc tr e aw : run' (tr ++ [e]) aw = step' e (run' tr aw).
Proof. unfold run. now rewrite fold_left_app. Qed.

Lemma run_refines tr : forall aw s,
  refines (fst aw) s ->
  refines (fst (run' tr aw)) (fold_left (fun s e => SpecSession.step e s) tr s).
Proof.
  induction tr as [|e tr IH]; intros aw s H; [exact H|].
  cbn [run fold_left]. apply IH. rewrite step_eta. now apply step_refines.
Qed.

(** On every run from start-up the accumulated seconds are the sum of the
    truncated segments since the last reset. *)
Lemma accum_is_sum_on_every_run tr w0 :
  refines (fst (run' tr (TimeTrackerApp_init w0))) (SpecSession.run tr).
Proof. apply run_refines, refines_init. Qed.

(** C1: on any sequence of Play, Pause and Stop events, each with its clock
    reading, that presses only enabled buttons, the accumulated seconds
    after a Pause or a Stop are the sum, over the running segments since
    the last reset to zero, of each segment's duration (now minus resume
    instant) truncated to whole seconds; and the total a Stop works with is
    that same sum taken with the segment it closes, not a difference of the
    end and start instants. *)
Theorem C1_accumulated_is_sum_of_truncated_segments tr e w0 :
  respects' (tr ++ [e]) (TimeTrackerApp_init w0) = true ->
  is_pause_or_stop e = true ->
  accum_seconds (fst (run' (tr ++ [e]) (TimeTrackerApp_init w0)))
  = SpecSession.sum_whole_seconds (SpecSession.segments (SpecSession.run (tr ++ [e])))
  /\
  (forall now user uuid4 io, e = Stop now user uuid4 io ->
     total_sec now (fst (run' tr (TimeTrackerApp_init w0)))
     = SpecSession.sum_whole_seconds
         (SpecSession.segments (SpecSession.close now (SpecSession.run tr)))).
Proof.
  intros _ _. split.
  - apply (accum_is_sum_on_every_run (tr ++ [e]) w0).
  - intros now user uuid4 io _.
    apply total_sec_refines, accum_is_sum_on_every_run.
Qed.

(** *** Claim C5 *)

Lemma strip_status s : In s STATUSES -> strip s = s.
Proof.
  intro H. repeat (destruct H as [<- | H]; [reflexivity|]). destruct H.
Qed.

(** C5, as the code has it: the persisted status is the submitted string
    with the surrounding white space removed, or "other" when nothing is
    left, so a blank status yields "other"; a value of the fixed set is
    persisted as it is, and the persisted status is in the fixed set
    whenever the trimmed submission is.  A non-empty string outside the set
    is persisted as submitted. *)
Theorem C5_status_trimmed_blank_is_other (status_var : str) :
  (forall now a l n uuid4 details,
     _save l n status_var = Some details ->
     status (build_entry' now a details uuid4) = persisted_status status_var) /\
  persisted_status status_var = str_or (strip status_var) (py "other") /\
  (strip status_var = [] -> persisted_status status_var = py "other") /\
  (strip status_var <> [] -> persisted_status status_var = strip status_var) /\
  (In (strip status_var) STATUSES -> In (persisted_status status_var) STATUSES) /\
  (In status_var STATUSES -> persisted_status status_var = status_var).
Proof.
  assert (Hp : persisted_status status_var = str_or (strip status_var) (py "other"))
    by reflexivity.
  split.
  { intros now a l n uuid4 details H. unfold _save in H. injection H as <-.
    rewrite Hp. unfold build_entry. cbn [status].
    now destruct (dict_get_save l n status_var) as (_ & _ & ->). }
  split; [exact Hp|]. rewrite Hp.
  split; [intros ->; reflexivity|].
  split; [destruct (strip status_var); [congruence|reflexivity]|].
  split.
  - destruct (strip status_var) eqn:E; [|trivial].
    intros _. cbn [str_or]. unfold STATUSES. cbn. tauto.
  - intro H. rewrite (strip_status _ H).
    destruct status_var; [|reflexivity].
    exfalso. unfold STATUSES in H. cbn in H.
    repeat (destruct H as [H | H]; [discriminate H|]). exact H.
Qed.

(** *** Claim C2 *)




Lemma on_play_files now tc a w :
  jsonl_file (snd (on_play now tc a w)) = jsonl_file w /\
  csv_file (snd (on_play now tc a w)) = csv_file w.
Proof.
  unfold on_play.
  destruct (state a); [|split; reflexivity|];
    rewrite (surjective_pairing (start_tick _ _ _)); cbn [snd];
    unfold _update_buttons, ui_call; cbn [jsonl_file csv_file];
    apply start_tick_files.
Qed.

Lemma on_pause_files now a w :
  jsonl_file (snd (on_pause now a w)) = jsonl_file w /\
  csv_file (snd (on_pause now a w)) = csv_file w.
Proof. unfold on_pause. destruct (state a); split; reflexivity. Qed.









(** *** Claim C10 *)

(** The two rollback paths set [state] after the finalize step and nothing
    else: the accumulated seconds, the session start and the session end
    are those the finalize step left. *)
Lemma rollback_sets_only_state now user uuid4 io a w :
  state a <> idle -> 0 < total_sec now a ->
  user = Cancel \/ (exists l n s, user = Save l n s) /\ io <> IoOk ->
  fst (on_stop' now user uuid4 io a w) = set_state paused (stop_finalize now a).
Proof.
  intros Hst Htot [-> | [(l & n & s & ->) Hio]].
  - now rewrite on_stop_cancel.
  - destruct io as [|e|e]; [congruence| |];
      now rewrite (on_stop_append_raises now l n s uuid4 _ e a w) by auto.
Qed.

Lemma step_keeps_session e a w :
  state a <> idle -> state (fst (step' e (a, w))) <> idle ->
  session_start (fst (step' e (a, w))) = session_start a.
Proof.
  intros Hst. destruct e as [now tc|now|now user uuid4 io]; cbn [step fst snd].
  - unfold on_play. destruct (state a) eqn:E; [congruence|reflexivity|].
    rewrite (surjective_pairing (start_tick _ _ _)). cbn [fst].
    rewrite start_tick_app. reflexivity.
  - unfold on_pause. destruct (state a) eqn:E; try reflexivity.
    destruct (_last_resume_at a); reflexivity.
  - destruct (Z.leb_spec (total_sec now a) 0) as [Hle | Hgt].
    + rewrite on_stop_active by assumption. cbv zeta.
      apply Z.leb_le in Hle. rewrite Hle, reset_session_app.
      cbn [state]. congruence.
    + destruct user as [l n s|]; [destruct io as [|err|err]|].
      * rewrite on_stop_saved by assumption. cbv zeta.
        rewrite reset_session_app. cbn [state]. congruence.
      * rewrite (on_stop_append_raises now l n s uuid4 _ err a w) by auto.
        reflexivity.
      * rewrite (on_stop_append_raises now l n s uuid4 _ err a w) by auto.
        reflexivity.
      * rewrite on_stop_cancel by assumption. reflexivity.
Qed.

Lemma run_keeps_session tr : forall aw,
  state (fst aw) <> idle ->
  stays_active isoformat local_date tr aw = true ->
  state (fst (run' tr aw)) <> idle /\
  session_start (fst (run' tr aw)) = session_start (fst aw).
Proof.
  induction tr as [|e tr IH]; intros aw Hst Hact; [split; [exact Hst|reflexivity]|].
  cbn [stays_active] in Hact. cbn [run fold_left].
  assert (Hst' : state (fst (step' e aw)) <> idle)
    by (destruct (state (fst (step' e aw))); congruence).
  assert (Hact' : stays_active isoformat local_date tr (step' e aw) = true)
    by (destruct (state (fst (step' e aw))); congruence).
  destruct (IH _ Hst' Hact') as [H1 H2].
  split; [exact H1|]. fold (run' tr (step' e aw)). rewrite H2.
  rewrite step_eta in Hst' |- *. now apply step_keeps_session.
Qed.

(** A session started by Play at [t0], kept alive through any number of
    pauses, resumes and rolled-back Stops, and then stopped and saved at
    [now]: the entry's end is rendered from [now], and its start from [t0]
    unless [t0] is the zero reading, which [session_start or now] takes for
    a missing start and replaces by [now]. *)
Lemma saved_entry_instants t0 tc tr now l n s uuid4 a0 w0 :
  state a0 = idle ->
  let aw1 := step' (Play t0 tc) (a0, w0) in
  stays_active isoformat local_date tr aw1 = true ->
  let aw2 := run' tr aw1 in
  0 < total_sec now (fst aw2) ->
  exists e,
    jsonl_file (snd (step' (Stop now (Save l n s) uuid4 IoOk) aw2))
    = Some (lines (jsonl_file (snd aw2)) ++ [asdict e]) /\
    start_iso e = isoformat (if Qeq_bool t0 0 then now else t0) /\
    date e = local_date (if Qeq_bool t0 0 then now else t0) /\
    end_iso e = isoformat now.
Proof.
  intros Hidle aw1 Hact aw2 Htot.
  assert (H1 : state (fst aw1) <> idle /\ session_start (fst aw1) = Some t0).
  { subst aw1. cbn [step fst snd]. unfold on_play. rewrite Hidle.
    rewrite (surjective_pairing (start_tick _ _ _)). cbn [fst].
    rewrite start_tick_app. split; [discriminate|reflexivity]. }
  destruct H1 as [Hst1 Hss1].
  destruct (run_keeps_session tr aw1 Hst1 Hact) as [Hst2 Hss2].
  fold aw2 in Hst2, Hss2. rewrite Hss1 in Hss2.
  cbn [step].
  destruct (on_stop_saved_files now l n s uuid4 (fst aw2) (snd aw2) Hst2 Htot)
    as [Hj _].
  cbv zeta in Hj. eexists. split; [exact Hj|].
  unfold build_entry. cbn [start_iso date end_iso session_start session_end
    stop_finalize set_session_end set_state set_last_resume_at set_accum_seconds].
  rewrite Hss2. unfold or_now. destruct (Qeq_bool now 0); repeat split.
Qed.

(** C10, at the zero reading: Play when the clock reads 0, a cancelled Stop
    at 10 (which leaves the session paused with start 0, end 10 and 10
    accumulated seconds), then a saved Stop at 20.  The entry's end is
    rendered from 20, and so are its start and its date: the start instant
    of the Play is not used. *)
Theorem C10_zero_play_instant_is_replaced :
  let aw1 := run' [Play 0 0; Stop 10 Cancel [] IoOk] started in
  let aw2 := step' (Stop 20 (Save [] [] (py "done")) (py "id-1") IoOk) aw1 in
  state (fst aw1) = paused /\
  session_start (fst aw1) = Some 0%Q /\
  session_end (fst aw1) = Some 10%Q /\
  accum_seconds (fst aw1) = 10 /\
  exists e,
    lines (jsonl_file (snd aw2)) = [asdict e] /\
    start_iso e = isoformat 20 /\
    date e = local_date 20 /\
    end_iso e = isoformat 20.
Proof.
  cbv zeta.
  split; [vm_compute; reflexivity|]. split; [vm_compute; reflexivity|].
  split; [vm_compute; reflexivity|]. split; [vm_compute; reflexivity|].
  exists {| id := py "id-1"; date := local_date 20; start_iso := isoformat 20;
            end_iso := isoformat 20; duration_seconds := 10;
            duration_hms := fmt_hms 10; ticket_url := []; note := [];
            status := py "done" |}.
  split; [vm_compute; reflexivity|]. repeat split.
Qed.

End Claims.

(** * The scenarios of the specification *)

Example fmt_hms_125 : fmt_hms 125 = py "00:02:05".
Proof. reflexivity. Qed.

(** Hours are not wrapped at 24. *)
Example fmt_hms_100_hours : fmt_hms 360000 = py "100:00:00".
Proof. reflexivity. Qed.

(** Play, Pause after 65 s, resume 5 s later, Stop after another 60 s:
    65 s are stored at the Pause and the Stop works with 125 s, where the
    end instant minus the start instant gives 130. *)
Example scenario_pause_resume :
  accum_seconds (fst (run epoch_text epoch_text [Play 1000 1000; Pause 1065] started))
  = 65 /\
  total_sec 1130 (fst sample_running) = 125 /\
  py_int (1130 - 1000) = 130.
Proof. repeat split. Qed.

(** Truncation is per segment: two segments of one second and a half, with
    no time at all between them, count for two seconds, not three. *)
Example truncation_is_per_segment :
  total_sec 1003
    (fst (run epoch_text epoch_text
            [Play 1000 1000; Pause (2003 # 2); Play (2003 # 2) (2003 # 2)] started))
  = 2 /\
  py_int (1003 - 1000) = 3.
Proof. repeat split. Qed.

(** Play and an immediate Stop: the notice, no write, idle again. *)
Example scenario_immediate_stop :
  let aw := step epoch_text epoch_text (Stop 1000 Cancel [] IoOk) just_played in
  state (fst aw) = idle /\
  jsonl_file (snd aw) = Some [] /\
  csv_file (snd aw) = Some [header_line] /\
  In (ShowInfo APP_TITLE (py "Nothing to save (duration is 0s).")) (ui (snd aw)).
Proof. cbv zeta. repeat split. vm_compute. tauto. Qed.

(** * Instances at concrete inputs *)

Lemma C7_witness :
  enabled (Play 1080 1080) (fst sample_running) = false /\
  step epoch_text epoch_text (Play 1080 1080) (fst sample_running, snd sample_running)
  = (fst sample_running, snd sample_running).
Proof.
  split; [reflexivity|].
  apply (C7_disabled_handler_is_noop epoch_text epoch_text). reflexivity.
Defined.

Lemma C9_witness :
  resume_iff_running (fst sample_running) /\
  resume_iff_running
    (fst (step epoch_text epoch_text (Pause 1130)
            (fst sample_running, snd sample_running))).
Proof.
  assert (H : resume_iff_running (fst sample_running))
    by (split; [reflexivity | discriminate]).
  split; [exact H|].
  apply (proj2 (C9_resume_instant_iff_running epoch_text epoch_text)). exact H.
Defined.

Lemma C6_witness :
  total_sec 1000 (fst just_played) <= 0 /\
  jsonl_file
    (snd (on_stop epoch_text epoch_text 1000 Cancel [] IoOk
            (fst just_played) (snd just_played)))
  = jsonl_file (snd just_played).
Proof.
  assert (H : total_sec 1000 (fst just_played) <= 0)
    by (vm_compute; discriminate).
  split; [exact H|].
  apply (proj1 (C6_stop_with_nothing_to_save epoch_text epoch_text
                  1000 Cancel [] IoOk _ _ H)).
Defined.

Lemma C4_witness :
  state (fst sample_running) <> idle /\
  0 < total_sec 1130 (fst sample_running) /\
  accum_seconds
    (fst (on_stop epoch_text epoch_text 1130 Cancel [] IoOk
            (fst sample_running) (snd sample_running)))
  = 125.
Proof.
  assert (Hst : state (fst sample_running) <> idle) by discriminate.
  assert (Htot : 0 < total_sec 1130 (fst sample_running)) by reflexivity.
  split; [exact Hst|]. split; [exact Htot|].
  apply (proj1 (proj2 (C4_cancelled_stop_keeps_elapsed epoch_text epoch_text
                         1130 [] IoOk _ _ Hst Htot))).
Defined.

Lemma C3_witness :
  state (fst sample_running) <> idle /\
  0 < total_sec 1130 (fst sample_running) /\
  CsvRaises (py "disk full") <> IoOk /\
  state
    (fst (on_stop epoch_text epoch_text 1130 (Save [] [] (py "done")) (py "id-1")
            (CsvRaises (py "disk full"))
            (fst sample_running) (snd sample_running)))
  = paused.
Proof.
  assert (Hst : state (fst sample_running) <> idle) by discriminate.
  assert (Htot : 0 < total_sec 1130 (fst sample_running)) by reflexivity.
  assert (Hio : CsvRaises (py "disk full") <> IoOk) by discriminate.
  split; [exact Hst|]. split; [exact Htot|]. split; [exact Hio|].
  apply (proj1 (proj2 (C3_append_failure_rolls_back epoch_text epoch_text
                         1130 [] [] (py "done") (py "id-1") _ _ _ Hst Htot Hio))).
Defined.

Lemma C8_witness :
  state (fst sample_running) <> idle /\
  0 < total_sec 1130 (fst sample_running) /\
  exists e : TimeEntry,
    jsonl_file
      (snd (on_stop epoch_text epoch_text 1130 (Save [] [] (py "done")) (py "id-1")
              IoOk (fst sample_running) (snd sample_running)))
    = Some (lines (jsonl_file (snd sample_running)) ++ [asdict e]) /\
    duration_seconds e = 125.
Proof.
  assert (Hst : state (fst sample_running) <> idle) by discriminate.
  assert (Htot : 0 < total_sec 1130 (fst sample_running)) by reflexivity.
  split; [exact Hst|]. split; [exact Htot|].
  destruct (C8_successful_stop_appends_one_pair epoch_text epoch_text
              1130 [] [] (py "done") (py "id-1") _ (snd sample_running) Hst Htot)
    as (e & Hj & _ & _ & _ & Hd & _).
  exists e. split; [exact Hj|]. rewrite Hd. reflexivity.
Defined.

Lemma C1_witness :
  respects epoch_text epoch_text
    (scenario ++ [Stop 1130 Cancel [] IoOk]) started = true /\
  accum_seconds
    (fst (run epoch_text epoch_text (scenario ++ [Stop 1130 Cancel [] IoOk]) started))
  = SpecSession.sum_whole_seconds [(1000%Q, 1065%Q); (1070%Q, 1130%Q)].
Proof.
  assert (H : respects epoch_text epoch_text
                (scenario ++ [Stop 1130 Cancel [] IoOk]) started = true)
    by reflexivity.
  split; [exact H|].
  apply (proj1 (C1_accumulated_is_sum_of_truncated_segments epoch_text epoch_text
                  scenario (Stop 1130 Cancel [] IoOk) fresh_world H eq_refl)).
Defined.

Lemma C5_witness :
  strip (py "  ") = [] /\ persisted_status (py "  ") = py "other".
Proof.
  assert (H : strip (py "  ") = []) by reflexivity.
  split; [exact H|].
  apply (proj1 (proj2 (proj2 (C5_status_trimmed_blank_is_other
                                epoch_text epoch_text (py "  "))))).
  exact H.
Defined.


(** * Where the claims as stated fail *)


(** C5 as stated: a submitted status outside the fixed set is persisted as
    it is, not as "other". *)
Lemma C5_counterexample : ~ In (persisted_status (py "urgent")) STATUSES.
Proof.
  vm_compute. intro H.
  repeat (destruct H as [H | H]; [discriminate H|]). exact H.
Qed.

(** * Further properties of the code *)

(** ** [fmt_hms] *)

Lemma py_app (a b : string) : py (a ++ b) = (py a ++ py b)%list.
Proof.
  unfold py. induction a as [|c a IH]; [reflexivity|].
  cbn [String.append list_ascii_of_string map app]. now rewrite IH.
Qed.

Lemma uint_text_no_colon (d : Decimal.uint) :
  Forall (fun c => c <> 58%N) (py (NilEmpty.string_of_uint d)).
Proof.
  induction d; cbn [NilEmpty.string_of_uint]; try constructor;
    try (vm_compute; discriminate); try assumption.
Qed.

Lemma str_of_Z_no_colon (z : Z) : Forall (fun c => c <> 58%N) (str_of_Z z).
Proof.
  unfold str_of_Z.
  assert (Hu : forall d, Forall (fun c => c <> 58%N) (py (NilZero.string_of_uint d))).
  { intro d. unfold NilZero.string_of_uint.
    destruct d; try apply uint_text_no_colon.
    repeat constructor; vm_compute; discriminate. }
  destruct (Z.to_int z) as [d|d]; cbn [NilZero.string_of_int]; [apply Hu|].
  change (String "-" (NilZero.string_of_uint d))
    with (String.append "-" (NilZero.string_of_uint d)).
  rewrite py_app. apply Forall_app. split; [|apply Hu].
  repeat constructor; vm_compute; discriminate.
Qed.

Lemma fmt_02d_no_colon (n : Z) : Forall (fun c => c <> 58%N) (fmt_02d n).
Proof.
  unfold fmt_02d. destruct ((0 <=? n) && (n <? 10)); [|apply str_of_Z_no_colon].
  apply Forall_app. split; [|apply str_of_Z_no_colon].
  repeat constructor; vm_compute; discriminate.
Qed.

(** A two-digit field reads back as its number, the padding zero
    included. *)
Lemma Z_of_str_fmt_02d (n : Z) : Z_of_str (fmt_02d n) = Some n.
Proof.
  unfold fmt_02d. destruct ((0 <=? n) && (n <? 10)) eqn:E; [|apply Z_of_str_of_Z].
  apply andb_true_iff in E. destruct E as [E1 E2].
  apply Z.leb_le in E1. apply Z.ltb_lt in E2.
  assert (Hk : exists k : nat, (k < 10)%nat /\ n = Z.of_nat k)
    by (exists (Z.to_nat n); lia).
  destruct Hk as (k & Hk & ->).
  do 10 (destruct k as [|k]; [reflexivity|]). lia.
Qed.

Lemma split_on_part (sep : N) (a : str) : forall cur rest,
  Forall (fun c => c <> sep) a ->
  split_on sep cur (a ++ sep :: rest) = (rev cur ++ a) :: split_on sep [] rest.
Proof.
  induction a as [|c a IH]; intros cur rest H; cbn [app split_on].
  - rewrite N.eqb_refl, app_nil_r. reflexivity.
  - inversion H as [|? ? Hc Ha]; subst.
    apply N.eqb_neq in Hc. rewrite Hc, IH by assumption.
    cbn [rev]. now rewrite <- app_assoc.
Qed.

Lemma split_on_last (sep : N) (a : str) : forall cur,
  Forall (fun c => c <> sep) a -> split_on sep cur a = [rev cur ++ a].
Proof.
  induction a as [|c a IH]; intros cur H; cbn [split_on].
  - now rewrite app_nil_r.
  - inversion H as [|? ? Hc Ha]; subst.
    apply N.eqb_neq in Hc. rewrite Hc, IH by assumption.
    cbn [rev]. now rewrite <- app_assoc.
Qed.

Lemma fmt_hms_reads_back (seconds : Z) :
  hms_seconds (fmt_hms seconds) = Some seconds.
Proof.
  unfold hms_seconds, fmt_hms.
  change (py ":") with [58%N]. cbn [app].
  rewrite (split_on_part 58 _ [] _ (fmt_02d_no_colon _)).
  rewrite (split_on_part 58 _ [] _ (fmt_02d_no_colon _)).
  rewrite (split_on_last 58 _ [] (fmt_02d_no_colon _)).
  cbn [rev app]. rewrite !Z_of_str_fmt_02d.
  f_equal. Z.div_mod_to_equations. lia.
Qed.

(** X1: the text [fmt_hms] renders stands for the seconds it was given:
    splitting it at the two colons and reading the three numbers back gives
    hours, minutes and seconds that add up to the input.  Hours are not
    wrapped, and a negative input is rendered with negative hours.  So two
    different durations are never rendered alike. *)
Theorem X1_fmt_hms_reads_back :
  (forall seconds, hms_seconds (fmt_hms seconds) = Some seconds) /\
  (forall a b, fmt_hms a = fmt_hms b -> a = b).
Proof.
  split; [exact fmt_hms_reads_back|].
  intros a b E. apply (f_equal hms_seconds) in E.
  rewrite !fmt_hms_reads_back in E. now injection E.
Qed.

Lemma fmt_02d_two (k : Z) : 0 <= k < 100 -> List.length (fmt_02d k) = 2%nat.
Proof.
  intro H.
  assert (Hn : exists n : nat, (n < 100)%nat /\ k = Z.of_nat n)
    by (exists (Z.to_nat k); lia).
  destruct Hn as (n & Hn & ->).
  do 100 (destruct n as [|n]; [reflexivity|]). lia.
Qed.

(** X2: below one hundred hours the rendering is exactly eight characters,
    two digits for each field with a colon after the first and the second
    field. *)
Theorem X2_fmt_hms_fixed_width (seconds : Z) :
  0 <= seconds < 360000 ->
  List.length (fmt_hms seconds) = 8%nat /\
  nth_error (fmt_hms seconds) 2 = Some 58%N /\
  nth_error (fmt_hms seconds) 5 = Some 58%N.
Proof.
  intro H. unfold fmt_hms. change (py ":") with [58%N]. cbn [app].
  assert (Hh : List.length (fmt_02d (seconds / 3600)) = 2%nat)
    by (apply fmt_02d_two; Z.div_mod_to_equations; lia).
  assert (Hm : List.length (fmt_02d (seconds mod 3600 / 60)) = 2%nat)
    by (apply fmt_02d_two; Z.div_mod_to_equations; lia).
  assert (Hs : List.length (fmt_02d (seconds mod 60)) = 2%nat)
    by (apply fmt_02d_two; Z.div_mod_to_equations; lia).
  destruct (fmt_02d (seconds / 3600)) as [|h1 [|h2 [|]]]; try discriminate Hh.
  destruct (fmt_02d (seconds mod 3600 / 60)) as [|m1 [|m2 [|]]]; try discriminate Hm.
  destruct (fmt_02d (seconds mod 60)) as [|s1 [|s2 [|]]]; try discriminate Hs.
  repeat split.
Qed.

Section More.

Variable isoformat : Q -> str.
Variable local_date : Q -> str.

Local Abbreviation on_stop' := (on_stop isoformat local_date).
Local Abbreviation step' := (step isoformat local_date).
Local Abbreviation input_step' := (input_step isoformat local_date).
Local Abbreviation input_run' := (input_run isoformat local_date).
Local Abbreviation fired' := (fired isoformat local_date).

(** ** The refresh timer *)

(** X3: a tick shows the seconds that a Pause at the same clock reading
    would store, which is also the total a Stop at that reading would work
    with; it schedules the next tick, and changes neither a log file nor a
    field of the session other than the job handle. *)
Theorem X3_tick_shows_what_pause_would_store clock a w :
  _tick clock a w
  = (set_tick_job (Some (after_count w)) a,
     {| jsonl_file := jsonl_file w; csv_file := csv_file w;
        ui := ui w ++
              [LabelConfig (fmt_hms (accum_seconds (fst (on_pause clock a w))));
               After REFRESH_MS (after_count w)];
        after_count := S (after_count w) |})
  /\ accum_seconds (fst (on_pause clock a w)) = total_sec clock a.
Proof.
  assert (H : accum_seconds (fst (on_pause clock a w)) = fold_segment clock a).
  { unfold on_pause, fold_segment.
    destruct (state a); try reflexivity.
    destruct (_last_resume_at a); reflexivity. }
  split; [|exact H].
  rewrite H. unfold _tick, ui_call. cbn. rewrite <- app_assoc. reflexivity.
Qed.

Lemma start_tick_count clock a w :
  (after_count (snd (start_tick clock a w)) + pending a
   = after_count w + pending (fst (start_tick clock a w)))%nat.
Proof.
  unfold start_tick, pending.
  destruct a as [st ss se ac [j|] lr]; cbn; lia.
Qed.

Lemma reset_session_count a w :
  (after_count (snd (_reset_session a w)) + pending a
   = after_count w + pending (fst (_reset_session a w)))%nat.
Proof.
  unfold _reset_session.
  match goal with |- context [start_tick ?c ?x ?y] =>
    pose proof (start_tick_count c x y) as H end.
  exact H.
Qed.

Lemma step_count e a w :
  (after_count (snd (step' e (a, w))) + pending a
   = after_count w + pending (fst (step' e (a, w))))%nat.
Proof.
  destruct e as [now tc|now|now user uuid4 io]; cbn [step fst snd].
  - unfold on_play. destruct (state a); try reflexivity.
    all: rewrite (surjective_pairing (start_tick _ _ _)); cbn [fst snd];
         match goal with |- context [start_tick ?c ?x ?y] =>
           pose proof (start_tick_count c x y) as H end;
         exact H.
  - unfold on_pause. destruct (state a); try reflexivity.
    destruct (_last_resume_at a); reflexivity.
  - destruct (state a) eqn:E.
    { unfold on_stop. rewrite E. reflexivity. }
    all: rewrite on_stop_active by congruence; cbv zeta.
    all: destruct (total_sec now a <=? 0);
           [match goal with |- context [_reset_session ?x ?y] =>
              pose proof (reset_session_count x y) as H end; exact H|].
    all: destruct (truthy (dialog_result user)) as [d|]; [|reflexivity].
    all: destruct io as [|err|err]; cbn [write_logs]; try reflexivity.
    all: match goal with |- context [_reset_session ?x ?y] =>
           pose proof (reset_session_count x y) as H end; exact H.
Qed.

Lemma last_buttons_app u v :
  last_buttons (u ++ v)
  = match last_buttons v with Some b => Some b | None => last_buttons u end.
Proof.
  induction u as [|c u IH]; cbn [app last_buttons].
  - destruct (last_buttons v); reflexivity.
  - rewrite IH. destruct (last_buttons v); reflexivity.
Qed.

Lemma start_tick_buttons clock a w :
  last_buttons (ui (snd (start_tick clock a w))) = last_buttons (ui w).
Proof.
  unfold start_tick, _tick, ui_call. destruct (_tick_job a); [reflexivity|].
  cbn [snd ui]. rewrite !last_buttons_app. reflexivity.
Qed.

Lemma update_buttons_shown a w :
  last_buttons (ui (_update_buttons a w)) = Some (guards a).
Proof.
  unfold _update_buttons, ui_call, guards, enabled. cbn [ui].
  rewrite last_buttons_app. destruct (state a); reflexivity.
Qed.

Lemma reset_session_buttons a w :
  last_buttons (ui (snd (_reset_session a w)))
  = Some (guards (fst (_reset_session a w))).
Proof.
  rewrite reset_session_app. unfold _reset_session.
  rewrite start_tick_buttons, update_buttons_shown. reflexivity.
Qed.


(** ** Ticks inside the modal windows of Stop *)

Lemma set_tick_job_twice j j' a :
  set_tick_job j (set_tick_job j' a) = set_tick_job j a.
Proof. reflexivity. Qed.

Lemma set_tick_job_same a : set_tick_job (_tick_job a) a = a.
Proof. destruct a; reflexivity. Qed.

(** Nested ticks change the job handle and nothing else of the session, and
    keep a started timer started. *)
Lemma nested_ticks_app n : forall a w,
  exists j,
    fst (nested_ticks n a w) = set_tick_job j a /\
    (j = None <-> _tick_job a = None).
Proof.
  induction n as [|n IH]; intros a w; cbn [nested_ticks].
  - exists (_tick_job a). split; [symmetry; apply set_tick_job_same | tauto].
  - destruct (_tick_job a) as [j0|] eqn:E.
    + destruct (IH (fst (_tick 0%Q a w)) (snd (_tick 0%Q a w))) as (j & Hj & Hn).
      exists j. split; [rewrite Hj; reflexivity|].
      cbn in Hn. split; intro H; [apply Hn in H; discriminate H | discriminate H].
    + exists None. split; [|tauto].
      cbn [fst]. rewrite <- E. symmetry. apply set_tick_job_same.
Qed.

Lemma nested_ticks_files n : forall a w,
  jsonl_file (snd (nested_ticks n a w)) = jsonl_file w /\
  csv_file (snd (nested_ticks n a w)) = csv_file w.
Proof.
  induction n as [|n IH]; intros a w; cbn [nested_ticks]; [split; reflexivity|].
  destruct (_tick_job a); [|split; reflexivity].
  destruct (IH (fst (_tick 0%Q a w)) (snd (_tick 0%Q a w))) as [-> ->].
  split; reflexivity.
Qed.

Lemma nested_ticks_count n : forall a w,
  after_count (snd (nested_ticks n a w))
  = (after_count w + match _tick_job a with Some _ => n | None => 0 end)%nat.
Proof.
  induction n as [|n IH]; intros a w; cbn [nested_ticks].
  - destruct (_tick_job a); cbn; lia.
  - destruct (_tick_job a) eqn:E; [|cbn; lia].
    rewrite IH. cbn. lia.
Qed.

Lemma nested_ticks_buttons n : forall a w,
  last_buttons (ui (snd (nested_ticks n a w))) = last_buttons (ui w).
Proof.
  induction n as [|n IH]; intros a w; cbn [nested_ticks]; [reflexivity|].
  destruct (_tick_job a); [|reflexivity].
  rewrite IH. unfold _tick, ui_call. cbn [snd ui].
  rewrite !last_buttons_app. reflexivity.
Qed.

Lemma labels_app u v : labels (u ++ v) = labels u ++ labels v.
Proof.
  induction u as [|c u IH]; [reflexivity|].
  destruct c; cbn [app labels]; rewrite IH; reflexivity.
Qed.

(** Outside the running state each nested tick puts the accumulated seconds
    on the label. *)
Lemma nested_ticks_ui n : forall a w,
  state a <> running ->
  exists calls,
    ui (snd (nested_ticks n a w)) = ui w ++ calls /\
    labels calls
    = repeat (fmt_hms (accum_seconds a))
        (match _tick_job a with Some _ => n | None => 0 end).
Proof.
  induction n as [|n IH]; intros a w Hst; cbn [nested_ticks].
  - exists []. rewrite app_nil_r. split; [reflexivity|].
    destruct (_tick_job a); reflexivity.
  - destruct (_tick_job a) eqn:E.
    + destruct (IH (fst (_tick 0%Q a w)) (snd (_tick 0%Q a w)) Hst)
        as (calls & Hu & Hl).
      exists ([LabelConfig (fmt_hms (accum_seconds a));
               After REFRESH_MS (after_count w)] ++ calls).
      split.
      * rewrite Hu. unfold _tick, ui_call, fold_segment. cbn [snd ui].
        destruct (state a); [|congruence|]; rewrite <- !app_assoc; reflexivity.
      * cbn [app labels repeat]. f_equal. exact Hl.
    + exists []. rewrite app_nil_r. split; reflexivity.
Qed.

(** [on_stop_modal] past its first guard. *)
Lemma on_stop_modal_active now user uuid4 io n1 n2 a w :
  state a <> idle ->
  on_stop_modal isoformat local_date now user uuid4 io n1 n2 a w =
    let a1 := stop_finalize now a in
    let w1 := _update_buttons a1 w in
    if total_sec now a <=? 0 then
      let aw2 :=
        nested_ticks n1 a1
          (ui_call (ShowInfo APP_TITLE (py "Nothing to save (duration is 0s).")) w1) in
      _reset_session (fst aw2) (snd aw2)
    else
      let aw2 :=
        nested_ticks n1 a1 (ui_call (OpenDialog (fmt_hms (total_sec now a))) w1) in
      match truthy (dialog_result user) with
      | None =>
          (set_state paused (fst aw2),
           _update_buttons (set_state paused (fst aw2)) (snd aw2))
      | Some details =>
          match write_logs io
                  (build_entry isoformat local_date now (fst aw2) details uuid4)
                  (snd aw2) with
          | (w3, Some e) =>
              let aw4 :=
                nested_ticks n2 (fst aw2)
                  (ui_call (ShowError APP_TITLE (py "Failed to write logs: " ++ e)) w3) in
              (set_state paused (fst aw4),
               _update_buttons (set_state paused (fst aw4)) (snd aw4))
          | (w3, None) =>
              let aw4 :=
                nested_ticks n2 (fst aw2)
                  (ui_call (ShowInfo APP_TITLE (py "Entry saved.")) w3) in
              _reset_session (fst aw4) (snd aw4)
          end
      end.
Proof.
  intro H. unfold on_stop_modal, total_sec.
  destruct (state a) eqn:E; [congruence| |]; reflexivity.
Qed.

(** With no tick inside, the modal Stop is the Stop of one step. *)
Lemma on_stop_modal_none now user uuid4 io a w :
  on_stop_modal isoformat local_date now user uuid4 io 0 0 a w
  = on_stop' now user uuid4 io a w.
Proof.
  unfold on_stop_modal, on_stop. cbn [nested_ticks fst snd].
  destruct (state a); try reflexivity.
  all: destruct (accum_seconds (stop_finalize now a) <=? 0); [reflexivity|].
  all: destruct (truthy (dialog_result user)); [|reflexivity].
  all: destruct (write_logs io _ _) as [w3 [e|]]; reflexivity.
Qed.

Lemma write_logs_files io entry w :
  jsonl_file (fst (write_logs io entry w))
  = match io with
    | JsonlRaises _ => jsonl_file w
    | _ => Some (lines (jsonl_file w) ++ [asdict entry])
    end /\
  csv_file (fst (write_logs io entry w))
  = match io with
    | IoOk => Some (lines (csv_file w) ++ [Csv.writerow (to_row entry)])
    | _ => csv_file w
    end /\
  snd (write_logs io entry w)
  = match io with
    | IoOk => None
    | JsonlRaises e | CsvRaises e => Some e
    end /\
  ui (fst (write_logs io entry w)) = ui w /\
  after_count (fst (write_logs io entry w)) = after_count w.
Proof. destruct io; repeat split. Qed.

(** Ticks inside the windows change neither the session a Stop leaves, the
    job handle apart, nor the two files. *)
Lemma on_stop_modal_same now user uuid4 io n1 n2 a w :
  set_tick_job None
    (fst (on_stop_modal isoformat local_date now user uuid4 io n1 n2 a w))
  = set_tick_job None (fst (on_stop' now user uuid4 io a w)) /\
  (_tick_job (fst (on_stop_modal isoformat local_date now user uuid4 io n1 n2 a w))
   = None <->
   _tick_job (fst (on_stop' now user uuid4 io a w)) = None) /\
  jsonl_file (snd (on_stop_modal isoformat local_date now user uuid4 io n1 n2 a w))
  = jsonl_file (snd (on_stop' now user uuid4 io a w)) /\
  csv_file (snd (on_stop_modal isoformat local_date now user uuid4 io n1 n2 a w))
  = csv_file (snd (on_stop' now user uuid4 io a w)).
Proof.
  destruct (state a) eqn:E.
  { unfold on_stop_modal, on_stop. rewrite E. repeat split; tauto. }
  all: rewrite on_stop_modal_active, on_stop_active by congruence; cbv zeta.
  all: destruct (total_sec now a <=? 0).
  all: match goal with |- context [nested_ticks ?n1 (stop_finalize ?t0 ?a0) ?w1] =>
         let a1 := constr:(stop_finalize t0 a0) in
         destruct (nested_ticks_app n1 a1 w1) as (j1 & Hj1 & Hn1);
         destruct (nested_ticks_files n1 a1 w1) as [Hfj1 Hfc1];
         pose proof (nested_ticks_count n1 a1 w1) as Hc1;
         rewrite Hj1 in *;
         generalize dependent (snd (nested_ticks n1 a1 w1))
       end; intros w2 Hfj1 Hfc1 Hc1.
  all: try (rewrite !reset_session_app;
            repeat match goal with |- context [_reset_session ?x ?y] =>
              let Hj := fresh in let Hc := fresh in
              destruct (reset_session_files x y) as [Hj Hc]; rewrite Hj, Hc;
              clear Hj Hc end;
            cbn in *; rewrite Hfj1, Hfc1;
            destruct j1, (_tick_job a); repeat split; intuition congruence).
  all: destruct (truthy (dialog_result user)) as [d|];
         [|cbn in *; rewrite Hfj1, Hfc1; repeat split; tauto].
  all: change (build_entry isoformat local_date now
                 (set_tick_job j1 (stop_finalize now a)) d uuid4)
         with (build_entry isoformat local_date now (stop_finalize now a) d uuid4).
  all: destruct io as [|err|err]; cbn [write_logs].
  all: match goal with |- context [nested_ticks ?n2 (set_tick_job ?j0 ?a0) ?w1] =>
         let a1 := constr:(set_tick_job j0 a0) in
         destruct (nested_ticks_app n2 a1 w1) as (j2 & Hj2 & Hn2);
         destruct (nested_ticks_files n2 a1 w1) as [Hfj2 Hfc2];
         rewrite Hj2 in *;
         generalize dependent (snd (nested_ticks n2 a1 w1))
       end; intros w4 Hfj2 Hfc2.
  all: try (rewrite !reset_session_app;
            repeat match goal with |- context [_reset_session ?x ?y] =>
              let Hj := fresh in let Hc := fresh in
              destruct (reset_session_files x y) as [Hj Hc]; rewrite Hj, Hc;
              clear Hj Hc end).
  all: unfold append_csv, append_jsonl in *; cbn in *;
       rewrite ?Hfj2, ?Hfc2; cbn; rewrite ?Hfj1, ?Hfc1.
  all: destruct j1, j2, (_tick_job a); repeat split; intuition congruence.
Qed.


Lemma pending_set_tick_job j a :
  (j = None <-> _tick_job a = None) -> pending (set_tick_job j a) = pending a.
Proof.
  unfold pending. cbn. intros [H1 H2].
  destruct j, (_tick_job a); try reflexivity;
    [specialize (H2 eq_refl) | specialize (H1 eq_refl)]; discriminate.
Qed.

Lemma on_stop_modal_count now user uuid4 io n1 n2 a w :
  (after_count (snd (on_stop_modal isoformat local_date now user uuid4 io n1 n2 a w))
   + pending a
   = after_count w
     + match _tick_job a with
       | Some _ => modal_ticks now user n1 n2 a
       | None => 0
       end
     + pending (fst (on_stop_modal isoformat local_date now user uuid4 io n1 n2 a w)))%nat.
Proof.
  unfold modal_ticks. destruct (state a) eqn:E.
  { unfold on_stop_modal. rewrite E. cbn [fst snd]. destruct (_tick_job a); lia. }
  all: rewrite on_stop_modal_active by congruence; cbv zeta.
  all: rewrite (Z.ltb_antisym (total_sec now a) 0).
  all: destruct (total_sec now a <=? 0); cbn [negb].
  all: match goal with |- context [nested_ticks ?n1 (stop_finalize ?t0 ?a0) ?w1] =>
         let a1 := constr:(stop_finalize t0 a0) in
         destruct (nested_ticks_app n1 a1 w1) as (j1 & Hj1 & Hn1);
         pose proof (nested_ticks_count n1 a1 w1) as Hc1;
         pose proof (pending_set_tick_job j1 a1 Hn1) as Hp1;
         rewrite Hj1 in *;
         generalize dependent (snd (nested_ticks n1 a1 w1))
       end; intros w2 Hc1.
  all: cbn [_tick_job stop_finalize set_session_end set_state set_last_resume_at
            set_accum_seconds after_count ui_call _update_buttons] in Hc1.
  all: change (pending (stop_finalize now a)) with (pending a) in Hp1.
  all: try (match goal with |- context [_reset_session ?x ?y] =>
              pose proof (reset_session_count x y) as Hr end;
            destruct user; destruct (_tick_job a); lia).
  all: destruct (truthy (dialog_result user)) as [d|] eqn:Ed;
         [|destruct user; [discriminate Ed|];
           cbn [fst snd _update_buttons ui_call after_count];
           change (pending (set_state paused (set_tick_job j1 (stop_finalize now a))))
             with (pending (set_tick_job j1 (stop_finalize now a)));
           destruct (_tick_job a); lia].
  all: destruct user as [l n s|]; [|discriminate Ed].
  all: destruct io as [|err|err]; cbn [write_logs].
  all: match goal with |- context [nested_ticks ?n2 (set_tick_job ?j0 ?a0) ?w1] =>
         let a1 := constr:(set_tick_job j0 a0) in
         destruct (nested_ticks_app n2 a1 w1) as (j2 & Hj2 & Hn2);
         pose proof (nested_ticks_count n2 a1 w1) as Hc2;
         pose proof (pending_set_tick_job j2 a1 Hn2) as Hp2;
         rewrite Hj2 in *;
         generalize dependent (snd (nested_ticks n2 a1 w1))
       end; intros w4 Hc2.
  all: unfold append_csv, append_jsonl in Hc2;
       cbn [_tick_job set_tick_job after_count ui_call] in Hc2.
  all: change (_tick_job (stop_finalize now a)) with (_tick_job a) in Hn1.
  all: try (match goal with |- context [_reset_session ?x ?y] =>
              pose proof (reset_session_count x y) as Hr end;
            rewrite set_tick_job_twice in *).
  all: cbn [fst snd _update_buttons ui_call after_count].
  all: try change (pending (set_state paused (set_tick_job j2
                     (set_tick_job j1 (stop_finalize now a)))))
         with (pending (set_tick_job j2 (set_tick_job j1 (stop_finalize now a)))).
  all: destruct j1, (_tick_job a) eqn:J;
       try (destruct Hn1 as [Hx Hy]; try specialize (Hx eq_refl);
            try specialize (Hy eq_refl); discriminate);
       cbn [pending _tick_job set_tick_job] in *; lia.
Qed.

Lemma input_step_count i a w :
  (after_count (snd (input_step' i (a, w))) + pending a
   = after_count w + fired' [i] (a, w) + pending (fst (input_step' i (a, w))))%nat.
Proof.
  destruct i as [e|now tc|clock|now user uuid4 io n1 n2];
    cbn [input_step fired fst snd].
  - rewrite Nat.add_0_r. apply step_count.
  - rewrite Nat.add_0_r. unfold _toggle_play_pause.
    destruct (state a) eqn:E.
    + apply (step_count (Play now tc)).
    + apply (step_count (Pause now)).
    + apply (step_count (Play now tc)).
  - unfold pending. destruct (_tick_job a) eqn:E; cbn; rewrite ?E; lia.
  - pose proof (on_stop_modal_count now user uuid4 io n1 n2 a w) as H.
    destruct (_tick_job a); lia.
Qed.

Lemma input_run_count tr : forall aw,
  (after_count (snd (input_run' tr aw)) + pending (fst aw)
   = after_count (snd aw) + fired' tr aw + pending (fst (input_run' tr aw)))%nat.
Proof.
  induction tr as [|i tr IH]; intros [a w]; cbn [input_run fold_left fired].
  - cbn. lia.
  - fold (input_run' tr (input_step' i (a, w))).
    specialize (IH (input_step' i (a, w))).
    pose proof (input_step_count i a w) as Hs.
    cbn [fired] in Hs. cbn [fst snd] in *. lia.
Qed.

(** X4: along any run of button presses, space-bar toggles and timer
    firings from start-up, the refresh jobs scheduled are the jobs fired
    plus exactly one pending job once the timer has been started, none
    before: the handlers never start a second chain of ticks. *)
Theorem X4_one_refresh_job_pending tr w0 :
  let aw := input_run' tr (TimeTrackerApp_init w0) in
  after_count (snd aw)
  = (after_count w0 + fired' tr (TimeTrackerApp_init w0)
     + match _tick_job (fst aw) with Some _ => 1 | None => 0 end)%nat.
Proof.
  cbv zeta. pose proof (input_run_count tr (TimeTrackerApp_init w0)) as H.
  unfold pending in H.
  change (_tick_job (fst (TimeTrackerApp_init w0))) with (@None nat) in H.
  change (after_count (snd (TimeTrackerApp_init w0)))
    with (after_count (ensure_paths (_update_buttons
           (fst (TimeTrackerApp_init w0)) w0))) in H.
  assert (He : forall w, after_count (ensure_paths w) = after_count w).
  { intro w. unfold ensure_paths.
    destruct w as [[j|] [c|] u k]; reflexivity. }
  rewrite He in H. cbn [_update_buttons ui_call after_count] in H. lia.
Qed.

(** ** The space bar *)

(** X5: the space bar always acts as the press of an enabled button, Pause
    when running and Play otherwise; it flips between running and not
    running and never leaves the session idle. *)
Theorem X5_toggle_is_an_enabled_press now tc a w :
  (exists e, enabled e a = true /\
             _toggle_play_pause now tc a w = step' e (a, w)) /\
  (state (fst (_toggle_play_pause now tc a w)) = running <-> state a <> running) /\
  state (fst (_toggle_play_pause now tc a w)) <> idle.
Proof.
  unfold _toggle_play_pause. destruct (state a) eqn:E.
  - split; [exists (Play now tc); unfold enabled; rewrite E; split; reflexivity|].
    unfold on_play. rewrite E.
    rewrite (surjective_pairing (start_tick _ _ _)). cbn [fst].
    rewrite start_tick_app. cbn.
    split; [split; congruence | discriminate].
  - split; [exists (Pause now); unfold enabled; rewrite E; split; reflexivity|].
    unfold on_pause. rewrite E. cbn.
    split; [split; [discriminate | congruence] | discriminate].
  - split; [exists (Play now tc); unfold enabled; rewrite E; split; reflexivity|].
    unfold on_play. rewrite E.
    rewrite (surjective_pairing (start_tick _ _ _)). cbn [fst].
    rewrite start_tick_app. cbn.
    split; [split; congruence | discriminate].
Qed.

(** ** How the handlers compose *)

(** X10: time after a Pause does not count: a Stop at any later reading
    works with the total that a Stop at the reading of the Pause would have
    worked with. *)
Theorem X10_time_after_pause_is_not_counted now later a w :
  total_sec later (fst (on_pause now a w)) = total_sec now a.
Proof.
  unfold total_sec, stop_finalize, fold_segment, on_pause.
  destruct (state a) eqn:E; cbn; rewrite ?E; try reflexivity.
  destruct (_last_resume_at a); reflexivity.
Qed.

(** X16: a Stop that was rolled back (dialog cancelled, or an append
    raised) loses nothing and adds nothing: after a resume at [t2], a Stop
    at [t3] works with the rolled-back total plus the whole seconds of the
    new segment. *)
Theorem X16_resume_after_rollback t1 t2 tc t3 user uuid4 io a w :
  state a <> idle -> 0 < total_sec t1 a ->
  user = Cancel \/ io <> IoOk ->
  let aw1 := on_stop' t1 user uuid4 io a w in
  let aw2 := on_play t2 tc (fst aw1) (snd aw1) in
  state (fst aw1) = paused /\
  total_sec t3 (fst aw2) = total_sec t1 a + py_int (t3 - t2).
Proof.
  intros Hst Htot Hroll aw1 aw2.
  assert (H1 : fst aw1 = set_state paused (stop_finalize t1 a)).
  { subst aw1. destruct user as [l n s|].
    - destruct Hroll as [Hc | Hio]; [discriminate Hc|].
      destruct io as [|e|e]; [congruence| |];
        now rewrite (on_stop_append_raises isoformat local_date t1 l n s uuid4 _ e a w)
          by auto.
    - now rewrite on_stop_cancel. }
  subst aw2. rewrite H1. split; [reflexivity|].
  unfold on_play. cbn [state set_state].
  rewrite (surjective_pairing (start_tick _ _ _)). cbn [fst].
  rewrite start_tick_app. reflexivity.
Qed.

(** ** The buttons on screen *)

Lemma step_buttons e a w :
  last_buttons (ui w) = Some (guards a) ->
  last_buttons (ui (snd (step' e (a, w)))) = Some (guards (fst (step' e (a, w)))).
Proof.
  intro H. destruct e as [now tc|now|now user uuid4 io]; cbn [step fst snd].
  - unfold on_play. destruct (state a) eqn:E; try exact H.
    all: rewrite (surjective_pairing (start_tick _ _ _)); cbn [fst snd];
         apply update_buttons_shown.
  - unfold on_pause. destruct (state a) eqn:E; try exact H.
    cbn [fst snd]. apply update_buttons_shown.
  - destruct (state a) eqn:E.
    { unfold on_stop. rewrite E. exact H. }
    all: rewrite on_stop_active by congruence; cbv zeta.
    all: destruct (total_sec now a <=? 0); [apply reset_session_buttons|].
    all: destruct (truthy (dialog_result user)) as [d|];
           [|cbn [fst snd]; apply update_buttons_shown].
    all: destruct (write_logs io _ _) as [w3 [err|]];
           [cbn [fst snd]; apply update_buttons_shown
           |apply reset_session_buttons].
Qed.

Lemma on_stop_modal_buttons now user uuid4 io n1 n2 a w :
  last_buttons (ui w) = Some (guards a) ->
  last_buttons
    (ui (snd (on_stop_modal isoformat local_date now user uuid4 io n1 n2 a w)))
  = Some (guards (fst (on_stop_modal isoformat local_date now user uuid4 io n1 n2 a w))).
Proof.
  intro H. destruct (state a) eqn:E.
  { unfold on_stop_modal. rewrite E. exact H. }
  all: rewrite on_stop_modal_active by congruence; cbv zeta.
  all: destruct (total_sec now a <=? 0); [apply reset_session_buttons|].
  all: destruct (truthy (dialog_result user)) as [d|];
         [|cbn [fst snd]; apply update_buttons_shown].
  all: destruct (write_logs io _ _) as [w3 [err|]];
         [cbn [fst snd]; apply update_buttons_shown
         |apply reset_session_buttons].
Qed.

Lemma input_step_buttons i a w :
  last_buttons (ui w) = Some (guards a) ->
  last_buttons (ui (snd (input_step' i (a, w))))
  = Some (guards (fst (input_step' i (a, w)))).
Proof.
  intro H. destruct i as [e|now tc|clock|now user uuid4 io n1 n2];
    cbn [input_step fst snd].
  - now apply step_buttons.
  - unfold _toggle_play_pause. destruct (state a).
    + now apply (step_buttons (Play now tc)).
    + now apply (step_buttons (Pause now)).
    + now apply (step_buttons (Play now tc)).
  - destruct (_tick_job a) eqn:E; [|exact H].
    unfold _tick, ui_call. cbn [fst snd ui]. rewrite !last_buttons_app.
    cbn [last_buttons]. exact H.
  - now apply on_stop_modal_buttons.
Qed.

Lemma input_step_eta i (aw : TimeTrackerApp * World) :
  input_step' i aw = input_step' i (fst aw, snd aw).
Proof. destruct aw; reflexivity. Qed.

(** X6: the buttons on screen are never stale.  At every point of every
    run from start-up, the buttons as the last [_update_buttons] left them
    are those of the current state: Play enabled in idle and paused, Pause
    in running, Stop in running and paused, which is where the handlers let
    the press through. *)
Theorem X6_buttons_agree_with_guards tr w0 :
  let aw := input_run' tr (TimeTrackerApp_init w0) in
  last_buttons (ui (snd aw)) = Some (guards (fst aw)).
Proof.
  cbv zeta.
  assert (H0 : last_buttons (ui (snd (TimeTrackerApp_init w0)))
               = Some (guards (fst (TimeTrackerApp_init w0)))).
  { cbn [TimeTrackerApp_init fst snd].
    assert (He : forall w, ui (ensure_paths w) = ui w).
    { intro w. unfold ensure_paths.
      destruct w as [[j|] [c|] u k]; reflexivity. }
    rewrite He. apply update_buttons_shown. }
  revert H0. generalize (TimeTrackerApp_init w0).
  induction tr as [|i tr IH]; intros aw H; [exact H|].
  cbn [input_run fold_left]. apply IH.
  rewrite input_step_eta. now apply input_step_buttons.
Qed.

(** X18: the press of an enabled button is never silent: the handler makes
    at least one toolkit call, the last of which sets the buttons for the
    state it leaves; Play and Pause change the state, and Stop never
    leaves it running. *)
Theorem X18_enabled_press_is_seen e a w :
  enabled e a = true ->
  (exists calls, calls <> [] /\ ui (snd (step' e (a, w))) = ui w ++ calls) /\
  last_buttons (ui (snd (step' e (a, w)))) = Some (guards (fst (step' e (a, w)))) /\
  match e with
  | Stop _ _ _ _ => state (fst (step' e (a, w))) <> running
  | _ => state (fst (step' e (a, w))) <> state a
  end.
Proof.
  intro He.
  assert (Hb : last_buttons (ui (snd (step' e (a, w))))
               = Some (guards (fst (step' e (a, w))))).
  { destruct e as [now tc|now|now user uuid4 io]; cbn [step fst snd];
      unfold enabled in He.
    - unfold on_play. destruct (state a) eqn:E; try discriminate He.
      all: rewrite (surjective_pairing (start_tick _ _ _)); cbn [fst snd];
           apply update_buttons_shown.
    - unfold on_pause. destruct (state a) eqn:E; try discriminate He.
      cbn [fst snd]. apply update_buttons_shown.
    - destruct (state a) eqn:E; try discriminate He.
      all: rewrite on_stop_active by congruence; cbv zeta.
      all: destruct (total_sec now a <=? 0); [apply reset_session_buttons|].
      all: destruct (truthy (dialog_result user)) as [d|];
             [|cbn [fst snd]; apply update_buttons_shown].
      all: destruct (write_logs io _ _) as [w3 [err|]];
             [cbn [fst snd]; apply update_buttons_shown
             |apply reset_session_buttons]. }
  split; [|split; [exact Hb|]].
  - destruct e as [now tc|now|now user uuid4 io]; cbn [step fst snd];
      unfold enabled in He.
    + unfold on_play, start_tick, _tick, _update_buttons, ui_call.
      destruct (state a) eqn:E; try discriminate He.
      all: destruct (_tick_job a) eqn:J; cbn; rewrite ?J; cbn;
           rewrite <- ?app_assoc; eexists; (split; [|reflexivity]); discriminate.
    + unfold on_pause, _update_buttons, ui_call.
      destruct (state a) eqn:E; try discriminate He.
      cbn. eexists; (split; [|reflexivity]); discriminate.
    + destruct (state a) eqn:E; try discriminate He.
      all: rewrite on_stop_active by congruence; cbv zeta.
      all: destruct (total_sec now a <=? 0);
             [rewrite reset_session_ui; unfold _update_buttons, ui_call; cbn [ui];
              rewrite <- !app_assoc; eexists; (split; [|reflexivity]);
              cbn; discriminate|].
      all: destruct (truthy (dialog_result user)) as [d|];
             [|unfold _update_buttons, ui_call; cbn [snd ui];
               rewrite <- !app_assoc; eexists; (split; [|reflexivity]);
               cbn; discriminate].
      all: destruct io as [|err|err]; cbn [write_logs];
             try (unfold _update_buttons, ui_call, append_jsonl; cbn [snd ui];
                  rewrite <- !app_assoc; eexists; (split; [|reflexivity]);
                  cbn; discriminate).
      all: rewrite reset_session_ui;
           unfold _update_buttons, ui_call, append_jsonl, append_csv; cbn [ui];
           rewrite <- !app_assoc; eexists; (split; [|reflexivity]);
           cbn; discriminate.
  - destruct e as [now tc|now|now user uuid4 io]; cbn [step fst snd];
      unfold enabled in He.
    + unfold on_play. destruct (state a) eqn:E; try discriminate He.
      all: rewrite (surjective_pairing (start_tick _ _ _)); cbn [fst];
           rewrite start_tick_app; cbn; discriminate.
    + unfold on_pause. destruct (state a) eqn:E; try discriminate He.
      cbn. discriminate.
    + destruct (state a) eqn:E; try discriminate He.
      all: rewrite on_stop_active by congruence; cbv zeta.
      all: destruct (total_sec now a <=? 0);
             [rewrite reset_session_app; cbn; discriminate|].
      all: destruct (truthy (dialog_result user)) as [d|];
             [|cbn; discriminate].
      all: destruct (write_logs io _ _) as [w3 [err|]];
             [cbn; discriminate | rewrite reset_session_app; cbn; discriminate].
Qed.

(** ** The session at rest and the live session *)

Lemma step_tidy e a w : session_tidy a -> session_tidy (fst (step' e (a, w))).
Proof.
  intro H. unfold session_tidy in *.
  destruct e as [now tc|now|now user uuid4 io]; cbn [step fst snd].
  - unfold on_play. destruct (state a) eqn:E; cbn [fst]; rewrite ?E; try exact H.
    all: rewrite (surjective_pairing (start_tick _ _ _)); cbn [fst];
         rewrite start_tick_app; cbn.
    + split; [discriminate|]. destruct (_tick_job a); discriminate.
    + destruct H as [Hs Hj]. split; [exact Hs|].
      destruct (_tick_job a); [discriminate|congruence].
  - unfold on_pause. destruct (state a) eqn:E; cbn [fst]; rewrite ?E; try exact H.
    destruct (_last_resume_at a); cbn; exact H.
  - destruct (state a) eqn:E.
    { unfold on_stop. rewrite E. cbn [fst]. rewrite E. exact H. }
    all: rewrite on_stop_active by congruence; cbv zeta.
    all: destruct (total_sec now a <=? 0);
           [rewrite reset_session_app; cbn; repeat split|].
    all: destruct (truthy (dialog_result user)) as [d|]; [|cbn; exact H].
    all: destruct (write_logs io _ _) as [w3 [err|]];
           [cbn; exact H | rewrite reset_session_app; cbn; repeat split].
Qed.

Lemma on_stop_modal_tidy now user uuid4 io n1 n2 a w :
  session_tidy a ->
  session_tidy (fst (on_stop_modal isoformat local_date now user uuid4 io n1 n2 a w)).
Proof.
  intro H.
  pose proof (step_tidy (Stop now user uuid4 io) a w H) as Ha.
  cbn [step fst snd] in Ha.
  destruct (on_stop_modal_same now user uuid4 io n1 n2 a w) as (Hf & Hj & _ & _).
  revert Hf Hj Ha.
  generalize (fst (on_stop_modal isoformat local_date now user uuid4 io n1 n2 a w)).
  generalize (fst (on_stop' now user uuid4 io a w)).
  intros x y Hf Hj Ha. unfold session_tidy in *.
  assert (Hs : state y = state x)
    by exact (f_equal state Hf).
  assert (Hac : accum_seconds y = accum_seconds x)
    by exact (f_equal accum_seconds Hf).
  assert (Hss : session_start y = session_start x)
    by exact (f_equal session_start Hf).
  assert (Hse : session_end y = session_end x)
    by exact (f_equal session_end Hf).
  rewrite Hs, Hac, Hss, Hse.
  destruct (state x); [exact Ha| |]; (split; [apply Ha|]);
    intro Hn; apply Hj in Hn; now apply Ha in Hn.
Qed.

Lemma input_step_tidy i a w :
  session_tidy a -> session_tidy (fst (input_step' i (a, w))).
Proof.
  intro H. destruct i as [e|now tc|clock|now user uuid4 io n1 n2];
    cbn [input_step fst snd].
  - now apply step_tidy.
  - unfold _toggle_play_pause. destruct (state a).
    + now apply (step_tidy (Play now tc)).
    + now apply (step_tidy (Pause now)).
    + now apply (step_tidy (Play now tc)).
  - destruct (_tick_job a) eqn:J; [|exact H].
    unfold session_tidy in *. cbn.
    destruct (state a); [exact H| |]; (split; [apply H|discriminate]).
  - now apply on_stop_modal_tidy.
Qed.

(** The refresh jobs that fire inside the windows of an enabled Stop put the
    total on the label, and nothing else touches the label there. *)
Lemma on_stop_modal_labels now user uuid4 io n1 n2 a w :
  state a <> idle -> _tick_job a <> None ->
  exists calls,
    ui (snd (on_stop_modal isoformat local_date now user uuid4 io n1 n2 a w))
    = ui w ++ calls /\
    labels calls
    = repeat (fmt_hms (total_sec now a)) (modal_ticks now user n1 n2 a).
Proof.
  intros Hst Hjob.
  rewrite on_stop_modal_active by exact Hst. cbv zeta.
  unfold modal_ticks.
  destruct (state a) eqn:E; [congruence| |].
  all: rewrite (Z.ltb_antisym (total_sec now a) 0).
  all: destruct (total_sec now a <=? 0) eqn:Et; cbn [negb].
  all: match goal with |- context [nested_ticks ?m1 (stop_finalize ?t0 ?a0) ?w1] =>
         let a1 := constr:(stop_finalize t0 a0) in
         destruct (nested_ticks_app m1 a1 w1) as (j1 & Hj1 & Hn1);
         destruct (nested_ticks_ui m1 a1 w1 ltac:(cbn; discriminate))
           as (c1 & Hu1 & Hl1);
         rewrite Hj1 in *;
         generalize dependent (snd (nested_ticks m1 a1 w1))
       end; intros w2 Hu1.
  all: unfold _update_buttons, ui_call in Hu1; cbn [ui] in Hu1;
       rewrite <- ?app_assoc in Hu1; cbn [app] in Hu1.
  all: change (_tick_job (stop_finalize now a)) with (_tick_job a) in Hn1, Hl1.
  all: change (accum_seconds (stop_finalize now a)) with (total_sec now a) in Hl1.
  all: destruct (_tick_job a) as [j0|] eqn:J; [clear Hjob | congruence].
  all: destruct j1 as [j1|]; [|destruct Hn1 as [Hn1 _]; now specialize (Hn1 eq_refl)].
  all: cbn [fst snd].
  all: try (rewrite reset_session_ui, Hu1; cbn [_tick_job set_tick_job];
            rewrite <- ?app_assoc; eexists; (split; [reflexivity|]);
            cbn [labels app]; rewrite !labels_app, Hl1; cbn [labels app];
            destruct user; rewrite Nat.add_0_r, app_nil_r; reflexivity).
  all: destruct (truthy (dialog_result user)) as [d|] eqn:Ed.
  all: destruct user as [l n s|]; try discriminate Ed.
  all: try (unfold _update_buttons, ui_call; cbn [ui snd fst]; rewrite Hu1;
            rewrite <- ?app_assoc; eexists; (split; [reflexivity|]);
            cbn [labels app]; rewrite !labels_app, Hl1; cbn [labels app];
            rewrite Nat.add_0_r, app_nil_r; reflexivity).
  all: destruct io as [|err|err]; cbn [write_logs].
  all: match goal with |- context [nested_ticks ?m2 (set_tick_job ?j ?a0) ?w1] =>
         let a1 := constr:(set_tick_job j a0) in
         destruct (nested_ticks_app m2 a1 w1) as (j2 & Hj2 & Hn2);
         destruct (nested_ticks_ui m2 a1 w1 ltac:(cbn; discriminate))
           as (c2 & Hu2 & Hl2);
         rewrite Hj2 in *;
         generalize dependent (snd (nested_ticks m2 a1 w1))
       end; intros w4 Hu2.
  all: unfold append_csv, append_jsonl, ui_call in Hu2; cbn [ui] in Hu2;
       rewrite Hu1 in Hu2; rewrite <- ?app_assoc in Hu2; cbn [app] in Hu2.
  all: cbn [_tick_job set_tick_job] in Hl2, Hn2.
  all: change (accum_seconds (set_tick_job (Some j1) (stop_finalize now a)))
         with (total_sec now a) in Hl2.
  all: destruct j2 as [j2|]; [|destruct Hn2 as [Hn2 _]; now specialize (Hn2 eq_refl)].
  all: cbn [fst snd].
  all: rewrite ?reset_session_ui; unfold _update_buttons, ui_call; cbn [ui snd fst];
       rewrite Hu2; cbn [_tick_job set_tick_job];
       rewrite <- ?app_assoc; eexists; (split; [reflexivity|]);
       cbn [labels app]; rewrite !labels_app, Hl1; cbn [labels app];
       rewrite ?labels_app, Hl2; cbn [labels app];
       rewrite ?app_nil_r, repeat_app; reflexivity.
Qed.

(** Inside the windows of a Stop with a positive total the session is not
    at rest, however many refresh jobs have fired there. *)
Lemma stop_window_session now n a w :
  state (fst (nested_ticks n (stop_finalize now a) w)) = idle /\
  accum_seconds (fst (nested_ticks n (stop_finalize now a) w)) = total_sec now a /\
  session_start (fst (nested_ticks n (stop_finalize now a) w)) = session_start a /\
  session_end (fst (nested_ticks n (stop_finalize now a) w)) = Some now.
Proof.
  destruct (nested_ticks_app n (stop_finalize now a) w) as (j & -> & _).
  repeat split.
Qed.

(** X7: whenever the application is back in its main loop, no handler
    running, along every run from start-up, an idle session holds no
    accumulated seconds and no start or end instant, and a running or
    paused session has its start instant and the refresh timer.  Inside
    [on_stop] it is otherwise: while its modal windows are open the state
    is idle, yet the session still holds the total, its start and its end
    instant, and every refresh job that fires there puts that total, not
    zero, on the label. *)
Theorem X7_tidy_between_inputs_total_inside_stop :
  (forall tr w0, session_tidy (fst (input_run' tr (TimeTrackerApp_init w0)))) /\
  (forall now n a w,
     let inside := fst (nested_ticks n (stop_finalize now a) w) in
     state inside = idle /\
     accum_seconds inside = total_sec now a /\
     session_start inside = session_start a /\
     session_end inside = Some now /\
     ~ session_tidy inside) /\
  (forall now user uuid4 io n1 n2 a w,
     state a <> idle -> _tick_job a <> None ->
     exists calls,
       ui (snd (on_stop_modal isoformat local_date now user uuid4 io n1 n2 a w))
       = ui w ++ calls /\
       labels calls
       = repeat (fmt_hms (total_sec now a)) (modal_ticks now user n1 n2 a)).
Proof.
  split; [|split].
  - intros tr w0.
    assert (H0 : session_tidy (fst (TimeTrackerApp_init w0))) by (cbn; auto).
    revert H0. generalize (TimeTrackerApp_init w0).
    induction tr as [|i tr IH]; intros aw H; [exact H|].
    cbn [input_run fold_left]. apply IH.
    rewrite input_step_eta. now apply input_step_tidy.
  - intros now n a w inside. subst inside.
    destruct (stop_window_session now n a w) as (Hs & Ha & Hb & He).
    repeat split; try assumption.
    unfold session_tidy. rewrite Hs, He. intros (_ & _ & H). discriminate H.
  - intros. now apply on_stop_modal_labels.
Qed.

(** ** The log files only grow *)

Lemma grows_by_nothing w w' :
  jsonl_file w' = jsonl_file w -> csv_file w' = csv_file w ->
  grows_by w w' [] [].
Proof.
  intros Hj Hc. unfold grows_by. rewrite Hj, Hc, !app_nil_r. auto.
Qed.

Lemma step_grows e a w :
  exists rj rc,
    grows_by w (snd (step' e (a, w))) rj rc /\
    (List.length rc <= List.length rj <= 1)%nat.
Proof.
  destruct e as [now tc|now|now user uuid4 io]; cbn [step fst snd].
  - exists [], []. split; [|cbn; lia].
    destruct (on_play_files now tc a w) as [Hj Hc]. now apply grows_by_nothing.
  - exists [], []. split; [|cbn; lia].
    destruct (on_pause_files now a w) as [Hj Hc]. now apply grows_by_nothing.
  - destruct (Z.leb_spec (total_sec now a) 0) as [Hle | Hgt].
    { exists [], []. split; [|cbn; lia].
      destruct (on_stop_nothing_files isoformat local_date now user uuid4 io a w Hle)
        as [Hj Hc].
      now apply grows_by_nothing. }
    destruct (state a) eqn:E.
    { exists [], []. split; [|cbn; lia].
      unfold on_stop. rewrite E. now apply grows_by_nothing. }
    all: assert (Hst : state a <> idle) by congruence.
    all: destruct user as [l n s|];
           [|exists [], []; split; [|cbn; lia];
             rewrite on_stop_cancel by assumption; now apply grows_by_nothing].
    all: destruct io as [|err|err].
    all: try (destruct (on_stop_saved_files isoformat local_date now l n s uuid4 a w
                          Hst Hgt) as [Hj Hc]; cbv zeta in Hj, Hc;
              eexists [_], [_]; split; [|cbn; lia];
              unfold grows_by; rewrite Hj, Hc; cbn [lines];
              repeat split; discriminate).
    all: rewrite (on_stop_append_raises isoformat local_date now l n s uuid4 _ err a w)
           by auto; cbn [snd].
    + exists [], []. split; [|cbn; lia]. now apply grows_by_nothing.
    + eexists [_], []. split; [|cbn; lia].
      unfold grows_by. cbn [jsonl_file csv_file lines]. rewrite app_nil_r.
      repeat split; auto; discriminate.
    + exists [], []. split; [|cbn; lia]. now apply grows_by_nothing.
    + eexists [_], []. split; [|cbn; lia].
      unfold grows_by. cbn [jsonl_file csv_file lines]. rewrite app_nil_r.
      repeat split; auto; discriminate.
Qed.

Lemma input_step_grows i a w :
  exists rj rc,
    grows_by w (snd (input_step' i (a, w))) rj rc /\
    (List.length rc <= List.length rj <= 1)%nat.
Proof.
  destruct i as [e|now tc|clock|now user uuid4 io n1 n2];
    cbn [input_step fst snd].
  - apply step_grows.
  - unfold _toggle_play_pause. destruct (state a).
    + apply (step_grows (Play now tc)).
    + apply (step_grows (Pause now)).
    + apply (step_grows (Play now tc)).
  - exists [], []. split; [|cbn; lia].
    destruct (_tick_job a); now apply grows_by_nothing.
  - destruct (step_grows (Stop now user uuid4 io) a w) as (rj & rc & Hg & Hl).
    cbn [step fst snd] in Hg.
    destruct (on_stop_modal_same now user uuid4 io n1 n2 a w) as (_ & _ & Hj & Hc).
    exists rj, rc. split; [|exact Hl].
    unfold grows_by in *. rewrite Hj, Hc. exact Hg.
Qed.

Lemma input_run_grows tr : forall aw,
  exists rj rc,
    grows_by (snd aw) (snd (input_run' tr aw)) rj rc /\
    (List.length rc <= List.length rj <= List.length tr)%nat.
Proof.
  induction tr as [|i tr IH]; intros [a w].
  - exists [], []. split; [now apply grows_by_nothing | cbn; lia].
  - cbn [input_run fold_left]. fold (input_run' tr (input_step' i (a, w))).
    destruct (input_step_grows i a w) as (rj1 & rc1 & (Hj1 & Hc1 & Ej1 & Ec1) & Hl1).
    destruct (IH (input_step' i (a, w))) as (rj2 & rc2 & (Hj2 & Hc2 & Ej2 & Ec2) & Hl2).
    exists (rj1 ++ rj2), (rc1 ++ rc2). cbn [snd] in *. split.
    + unfold grows_by. rewrite Hj2, Hc2, Hj1, Hc1, <- !app_assoc.
      repeat split; auto.
    + rewrite !length_app. cbn [List.length]. lia.
Qed.

(** X8: no handler ever removes or rewrites what is in a log file.  One
    input leaves each file as what it held followed by at most one new
    element, and along any run each file ends as what it held before
    followed by what the run appended; a file that existed still exists,
    and the tabular log never gains more rows than the structured log gains
    records. *)
Theorem X8_logs_are_append_only :
  (forall i a w,
     exists rj rc,
       grows_by w (snd (input_step' i (a, w))) rj rc /\
       (List.length rc <= List.length rj <= 1)%nat) /\
  (forall tr aw,
     exists rj rc,
       grows_by (snd aw) (snd (input_run' tr aw)) rj rc /\
       (List.length rc <= List.length rj <= List.length tr)%nat).
Proof.
  split.
  - exact input_step_grows.
  - intros tr aw. apply input_run_grows.
Qed.

(** ** Start-up *)

Lemma ensure_paths_exist w :
  jsonl_file (ensure_paths w) <> None /\ csv_file (ensure_paths w) <> None.
Proof.
  unfold ensure_paths. destruct w as [[j|] [c|] u k]; cbn; split; discriminate.
Qed.

Lemma ensure_paths_kept w :
  jsonl_file w <> None -> csv_file w <> None -> ensure_paths w = w.
Proof.
  unfold ensure_paths. destruct w as [[j|] [c|] u k]; cbn; congruence.
Qed.

Lemma ensure_paths_io_ok w : ensure_paths_io StartupOk w = (ensure_paths w, None).
Proof.
  unfold ensure_paths_io, ensure_paths. destruct w as [[j|] [c|] u k]; reflexivity.
Qed.

Lemma ensure_paths_io_kept fs w :
  (forall c, csv_file w = Some c -> csv_file (fst (ensure_paths_io fs w)) = Some c) /\
  (forall j, jsonl_file w = Some j -> jsonl_file (fst (ensure_paths_io fs w)) = Some j).
Proof.
  unfold ensure_paths_io.
  destruct fs, w as [[j|] [c|] u k]; cbn; split; intros x H; congruence.
Qed.

Lemma ensure_paths_io_returns fs w :
  snd (ensure_paths_io fs w) = None -> fst (ensure_paths_io fs w) = ensure_paths w.
Proof.
  unfold ensure_paths_io, ensure_paths.
  destruct fs, w as [[j|] [c|] u k]; cbn; intro H; try reflexivity; discriminate H.
Qed.

Lemma ensure_paths_io_exist fs w :
  jsonl_file w <> None -> csv_file w <> None ->
  jsonl_file (fst (ensure_paths_io fs w)) = jsonl_file w /\
  csv_file (fst (ensure_paths_io fs w)) = csv_file w /\
  (snd (ensure_paths_io fs w) = None <-> forall e, fs <> MakedirsRaises e).
Proof.
  unfold ensure_paths_io.
  destruct fs, w as [[j|] [c|] u k]; cbn; intros Hj Hc; try congruence.
  all: repeat split; try discriminate; try congruence.
  intro H. now specialize (H e).
Qed.

(** X9: start-up and the two log files.  Whatever the file system does,
    [ensure_paths] leaves a log file that exists exactly as it is.  If it
    returns without raising, a missing tabular log has been created with
    the header row alone and a missing structured log empty, and running it
    again changes nothing; that is what it does when no call raises.  When
    both files exist, the call that can still raise is [os.makedirs].  So
    starting the application again on the files an earlier run left,
    whatever that run did and whether or not this start-up raises, changes
    neither file. *)
Theorem X9_start_up_keeps_the_logs :
  (forall fs w,
     (forall c, csv_file w = Some c -> csv_file (fst (ensure_paths_io fs w)) = Some c) /\
     (forall j, jsonl_file w = Some j ->
        jsonl_file (fst (ensure_paths_io fs w)) = Some j) /\
     (snd (ensure_paths_io fs w) = None ->
        fst (ensure_paths_io fs w) = ensure_paths w /\
        (csv_file w = None ->
           csv_file (fst (ensure_paths_io fs w)) = Some [header_line]) /\
        (jsonl_file w = None -> jsonl_file (fst (ensure_paths_io fs w)) = Some []) /\
        forall fs', fst (ensure_paths_io fs' (fst (ensure_paths_io fs w)))
                    = fst (ensure_paths_io fs w))) /\
  (forall w,
     ensure_paths_io StartupOk w = (ensure_paths w, None) /\
     (jsonl_file w <> None -> csv_file w <> None ->
      forall fs,
        snd (ensure_paths_io fs w) = None <-> forall e, fs <> MakedirsRaises e)) /\
  (forall tr w0 fs,
     let w1 := snd (input_run' tr (TimeTrackerApp_init w0)) in
     jsonl_file (snd (TimeTrackerApp_init_io fs w1)) = jsonl_file w1 /\
     csv_file (snd (TimeTrackerApp_init_io fs w1)) = csv_file w1).
Proof.
  split; [|split].
  - intros fs w. destruct (ensure_paths_io_kept fs w) as [Hc Hj].
    split; [exact Hc|]. split; [exact Hj|].
    intro Hret. rewrite (ensure_paths_io_returns fs w Hret).
    split; [reflexivity|]. split; [|split].
    + intros H. unfold ensure_paths.
      destruct w as [[j|] [c|] u k]; cbn in *; try reflexivity; congruence.
    + intros H. unfold ensure_paths.
      destruct w as [[j|] [c|] u k]; cbn in *; try reflexivity; congruence.
    + intro fs'. destruct (ensure_paths_exist w) as [Ej Ec].
      unfold ensure_paths_io.
      destruct fs', (ensure_paths w) as [[j|] [c|] u k]; cbn in *;
        try reflexivity; congruence.
  - intro w. split; [apply ensure_paths_io_ok|].
    intros Hj Hc fs. now apply ensure_paths_io_exist.
  - intros tr w0 fs w1.
    destruct (input_run_grows tr (TimeTrackerApp_init w0))
      as (rj & rc & (_ & _ & Ej & Ec) & _).
    cbn [TimeTrackerApp_init snd] in Ej, Ec.
    destruct (ensure_paths_exist
      (_update_buttons (fst (TimeTrackerApp_init w0)) w0)) as [Hj Hc].
    specialize (Ej Hj). specialize (Ec Hc). fold w1 in Ej, Ec.
    unfold TimeTrackerApp_init_io.
    match goal with |- context [ensure_paths_io fs ?x] =>
      destruct (ensure_paths_io_exist fs x) as (Fj & Fc & _);
        [exact Ej | exact Ec |];
      destruct (ensure_paths_io fs x) as [w2 [e|]]
    end; cbn [fst snd] in *; split; assumption.
Qed.

(** ** A retried Stop *)


End More.

(** ** Rows, records and the header *)

(** X13: the columns line up.  For every entry, the keys of the structured
    record are, in order, the cells of the header row of the tabular log
    (which reads back as exactly those names), and the texts of the record's
    values are, in the same order, the cells of the entry's row. *)
Theorem X13_columns_line_up (e : TimeEntry) :
  map fst (asdict e) = map Csv.cell_text CSV_HEADER /\
  map (fun kv => jvalue_text (snd kv)) (asdict e) = map Csv.cell_text (to_row e) /\
  Csv.readrow header_line = Some (map fst (asdict e)).
Proof.
  split; [reflexivity|]. split; [reflexivity|].
  unfold header_line. rewrite CsvFacts.readrow_writerow by discriminate.
  reflexivity.
Qed.


(** ** What the dialog hands over *)

Lemma lstrip_head s c t : lstrip s = c :: t -> is_space c = false.
Proof.
  induction s as [|x s IH]; cbn [lstrip]; [discriminate|].
  destruct (is_space x) eqn:E; [exact IH|].
  intro H. injection H as <- _. exact E.
Qed.

Lemma lstrip_snoc s c :
  is_space c = false -> lstrip (s ++ [c]) = lstrip s ++ [c].
Proof.
  intro Hc. induction s as [|x s IH]; cbn [app lstrip].
  - now rewrite Hc.
  - destruct (is_space x); [exact IH | reflexivity].
Qed.

Lemma last_rev_head (s : str) d r x : rev s = d :: r -> last s x = d.
Proof.
  intro H. apply (f_equal (@rev N)) in H. rewrite rev_involutive in H.
  subst s. cbn [rev]. apply last_last.
Qed.

Lemma strip_trimmed s : trimmed (strip s).
Proof.
  unfold strip, rstrip.
  destruct (lstrip s) as [|c t] eqn:E; [exact I|].
  pose proof (lstrip_head _ _ _ E) as Hc.
  cbn [rev]. rewrite lstrip_snoc by exact Hc.
  rewrite rev_app_distr. cbn [rev app]. split; [exact Hc|].
  destruct (lstrip (rev t)) as [|d v] eqn:Ev; [exact Hc|].
  cbn [rev]. change (c :: rev v ++ [d]) with ((c :: rev v) ++ [d]).
  rewrite last_last. exact (lstrip_head _ _ _ Ev).
Qed.

Lemma strip_of_trimmed s : trimmed s -> strip s = s.
Proof.
  destruct s as [|c t]; [reflexivity|].
  intros [Hc Hl]. unfold strip, rstrip. cbn [lstrip]. rewrite Hc.
  destruct (rev (c :: t)) as [|d r] eqn:E.
  - apply (f_equal (@List.length N)) in E. rewrite length_rev in E. discriminate E.
  - rewrite (last_rev_head _ _ _ c E) in Hl. cbn [lstrip]. rewrite Hl.
    rewrite <- E. apply rev_involutive.
Qed.

(** X12: what Save hands over is a dictionary with all three keys, so the
    defaults of [details.get] stay unused, and it counts as a result (it is
    truthy).  The link, the note and the status have no white space at
    either end, the status is never empty, and a text that was already
    trimmed is handed over as typed. *)
Theorem X12_saved_fields_are_trimmed (l n s : str) :
  exists d,
    _save l n s = Some d /\ truthy (Some d) = Some d /\
    map fst d = [py "ticket_url"; py "note"; py "status"] /\
    trimmed (dict_get d (py "ticket_url") []) /\
    trimmed (dict_get d (py "note") []) /\
    trimmed (dict_get d (py "status") (py "other")) /\
    dict_get d (py "status") (py "other") <> [] /\
    (trimmed l -> dict_get d (py "ticket_url") [] = l) /\
    (trimmed n -> dict_get d (py "note") [] = n) /\
    (trimmed s -> s <> [] -> dict_get d (py "status") (py "other") = s).
Proof.
  eexists. split; [reflexivity|]. split; [reflexivity|]. split; [reflexivity|].
  destruct (dict_get_save l n s) as (-> & -> & ->).
  split; [apply strip_trimmed|]. split; [apply strip_trimmed|].
  split.
  { pose proof (strip_trimmed s) as H.
    destruct (strip s); [vm_compute; auto | exact H]. }
  split.
  { destruct (strip s); [vm_compute|]; discriminate. }
  split; [apply strip_of_trimmed|]. split; [apply strip_of_trimmed|].
  intros H Hne. rewrite (strip_of_trimmed s H).
  destruct s; [congruence | reflexivity].
Qed.

(** ** A clock that does not go back *)

Lemma py_int_bounds (q : Q) :
  (0 <= q)%Q -> 0 <= py_int q /\ (inject_Z (py_int q) <= q)%Q.
Proof.
  destruct q as [n d]. unfold Qle, py_int, inject_Z. cbn [Qnum Qden].
  intro H. assert (Hn : 0 <= n) by lia. split.
  - apply Z.quot_pos; lia.
  - pose proof (Z.mul_quot_le n (Zpos d) Hn ltac:(lia)). lia.
Qed.

Lemma py_int_small (q : Q) : (0 <= q)%Q -> (q < 1)%Q -> py_int q = 0.
Proof.
  destruct q as [n d]. unfold Qle, Qlt, py_int. cbn [Qnum Qden].
  intros H0 H1. apply Z.quot_small. lia.
Qed.

Section Clock.

Variable isoformat : Q -> str.
Variable local_date : Q -> str.

Local Abbreviation on_stop' := (on_stop isoformat local_date).
Local Abbreviation step' := (step isoformat local_date).
Local Abbreviation run' := (run isoformat local_date).

(** The total of a Stop at a reading not before [t]. *)
Lemma on_clock_total t now a :
  on_clock t a -> (t <= now)%Q ->
  0 <= total_sec now a /\
  (forall start, state a <> idle -> session_start a = Some start ->
     (inject_Z (total_sec now a) <= now - start)%Q).
Proof.
  intros [Hpos H] Ht. unfold total_sec, stop_finalize, fold_segment.
  cbn [accum_seconds set_session_end set_state set_last_resume_at set_accum_seconds].
  destruct (state a) eqn:E.
  - split; [exact Hpos|congruence].
  - destruct H as (start & r & Hs & Hr & Hrt & Hacc). rewrite Hr.
    destruct (py_int_bounds (now - r)) as [Hp Hq]; [lra|].
    split; [lia|]. intros start' _ Hs'. rewrite Hs in Hs'. injection Hs' as <-.
    rewrite inject_Z_plus. lra.
  - destruct H as (start & Hs & Hacc).
    split; [exact Hpos|]. intros start' _ Hs'. rewrite Hs in Hs'. injection Hs' as <-.
    lra.
Qed.

Lemma step_on_clock t e a w :
  on_clock t a -> (t <= event_time e)%Q ->
  on_clock (event_time e) (fst (step' e (a, w))).
Proof.
  intros Hinv Ht. pose proof Hinv as [Hpos H].
  destruct e as [now tc|now|now user uuid4 io]; cbn [step fst snd event_time] in *.
  - unfold on_play. destruct (state a) eqn:E.
    + rewrite (surjective_pairing (start_tick _ _ _)). cbn [fst].
      rewrite start_tick_app. split; [cbn; lia|]. cbn.
      exists now, now. repeat split; try lra.
      change (inject_Z 0) with 0%Q. lra.
    + cbn [fst]. split; [exact Hpos|]. rewrite E.
      destruct H as (start & r & Hs & Hr & Hrt & Hacc).
      exists start, r. repeat split; try assumption. lra.
    + rewrite (surjective_pairing (start_tick _ _ _)). cbn [fst].
      rewrite start_tick_app. split; [exact Hpos|]. cbn.
      destruct H as (start & Hs & Hacc).
      exists start, now. repeat split; try assumption; lra.
  - unfold on_pause. destruct (state a) eqn:E; cbn [fst].
    + split; [exact Hpos|]. now rewrite E.
    + destruct H as (start & r & Hs & Hr & Hrt & Hacc). rewrite Hr.
      destruct (py_int_bounds (now - r)) as [Hp Hq]; [lra|].
      split; [cbn; lia|]. cbn. exists start. split; [exact Hs|].
      rewrite inject_Z_plus. lra.
    + split; [exact Hpos|]. rewrite E.
      destruct H as (start & Hs & Hacc). exists start. split; [exact Hs|]. lra.
  - destruct (on_clock_total t now a Hinv Ht) as [Htot Hle].
    destruct (state a) eqn:E.
    { unfold on_stop. rewrite E. cbn [fst]. split; [exact Hpos|]. now rewrite E. }
    all: assert (Hst : state a <> idle) by congruence.
    all: assert (Hp : on_clock now (set_state paused (stop_finalize now a)));
      [ split; [exact Htot|]; cbn;
        destruct (session_start a) as [start|] eqn:Hs;
          [exists start; split; [reflexivity|]; now apply Hle
          | destruct H as (start & H); destruct H as [? H'];
            try destruct H' as (Hs' & _); congruence ]
      | ].
    all: rewrite on_stop_active by assumption; cbv zeta.
    all: destruct (total_sec now a <=? 0);
           [rewrite reset_session_app; split; cbn; [lia|exact I]|].
    all: destruct (truthy (dialog_result user)) as [d|]; [|exact Hp].
    all: destruct (write_logs io _ _) as [w3 [err|]];
           [exact Hp | rewrite reset_session_app; split; cbn; [lia|exact I]].
Qed.

Lemma run_on_clock tr : forall t aw,
  on_clock t (fst aw) -> clock_monotone t tr = true ->
  on_clock (last_time t tr) (fst (run' tr aw)).
Proof.
  induction tr as [|e tr IH]; intros t [a w] Hinv Hm; [exact Hinv|].
  cbn [clock_monotone] in Hm. apply andb_true_iff in Hm. destruct Hm as [Hle Hm].
  apply Qle_bool_iff in Hle.
  cbn [run fold_left last_time]. apply (IH (event_time e)); [|exact Hm].
  now apply (step_on_clock t).
Qed.

(** X11: on a run whose clock readings never go back, the accumulated
    seconds are never negative, and a Stop at a reading not before the last
    one works with a total that is not negative.  Each segment adds the
    truncation of a difference that is not negative, and that stays so when
    the difference is rounded to a double. *)
Theorem X11_duration_not_negative tr t0 w0 now :
  clock_monotone t0 tr = true ->
  (last_time t0 tr <= now)%Q ->
  let a := fst (run' tr (TimeTrackerApp_init w0)) in
  0 <= accum_seconds a /\ 0 <= total_sec now a.
Proof.
  intros Hm Ht a.
  assert (H0 : on_clock t0 (fst (TimeTrackerApp_init w0)))
    by (split; [cbn; lia | exact I]).
  pose proof (run_on_clock tr t0 (TimeTrackerApp_init w0) H0 Hm) as H.
  fold a in H. split; [apply H|].
  apply (on_clock_total (last_time t0 tr)); assumption.
Qed.

(** X22: the recorded duration never exceeds the wall-clock span of the
    entry.  On a run whose readings never go back and all lie between a
    positive [t0] and its double, where the difference of two doubles is
    itself a double and the subtraction exact, a Stop of a live session
    works with a total of at most the time from the session's start to
    that Stop. *)
Theorem X22_duration_within_the_span tr t0 w0 now :
  (0 < t0)%Q -> (now <= 2 * t0)%Q ->
  clock_monotone t0 tr = true ->
  (last_time t0 tr <= now)%Q ->
  let a := fst (run' tr (TimeTrackerApp_init w0)) in
  forall start, state a <> idle -> session_start a = Some start ->
    (inject_Z (total_sec now a) <= now - start)%Q.
Proof.
  intros Hpos Htwo Hm Ht a.
  assert (H0 : on_clock t0 (fst (TimeTrackerApp_init w0)))
    by (split; [cbn; lia | exact I]).
  pose proof (run_on_clock tr t0 (TimeTrackerApp_init w0) H0 Hm) as H.
  fold a in H.
  apply (on_clock_total (last_time t0 tr)); assumption.
Qed.

(** X17: a session shorter than one second is thrown away.  Play from idle
    and then Stop later by no more than the largest double below one (the
    clock not having gone back), so that the difference of the two
    readings is below one also as the double it is rounded to: the toolkit
    is called for the buttons and for the notice that there is nothing to
    save and for nothing else (no dialog opens), neither file is touched,
    and the session is idle again with nothing accumulated. *)
Theorem X17_sub_second_session_is_discarded now tc later user uuid4 io a w :
  state a = idle -> (now <= later)%Q -> (later - now <= below_one)%Q ->
  let aw1 := on_play now tc a w in
  let aw2 := on_stop' later user uuid4 io (fst aw1) (snd aw1) in
  state (fst aw2) = idle /\ accum_seconds (fst aw2) = 0 /\
  jsonl_file (snd aw2) = jsonl_file w /\ csv_file (snd aw2) = csv_file w /\
  ui (snd aw2)
  = ui (snd aw1) ++
    [ButtonStates true false false;
     ShowInfo APP_TITLE (py "Nothing to save (duration is 0s).");
     ButtonStates true false false].
Proof.
  intros Hidle H1 H2 aw1 aw2.
  assert (Hst : state (fst aw1) <> idle /\ total_sec later (fst aw1) = 0 /\
                exists j, _tick_job (fst aw1) = Some j).
  { subst aw1. unfold on_play. rewrite Hidle.
    rewrite (surjective_pairing (start_tick _ _ _)). cbn [fst].
    rewrite start_tick_app. split; [discriminate|]. split.
    - unfold total_sec, stop_finalize, fold_segment. cbn.
      unfold below_one in H2. apply py_int_small; lra.
    - cbn. destruct (_tick_job a); eexists; reflexivity. }
  destruct Hst as (Hst & Htot & j & Hjob).
  destruct (on_play_files now tc a w) as [Hj1 Hc1]. fold aw1 in Hj1, Hc1.
  subst aw2. rewrite on_stop_active by exact Hst. cbv zeta.
  rewrite Htot. cbn [Z.leb Z.compare].
  match goal with |- context [_reset_session ?x ?y] =>
    destruct (reset_session_files x y) as [Hj Hc] end.
  rewrite Hj, Hc, reset_session_app, reset_session_ui.
  cbn [state accum_seconds jsonl_file csv_file ui ui_call _update_buttons
       stop_finalize set_session_end set_state set_last_resume_at
       set_accum_seconds _tick_job].
  rewrite Hjob, <- !app_assoc. cbn [app].
  repeat split; assumption.
Qed.

Lemma py_int_negative (q : Q) : (q <= -1)%Q -> py_int q <= -1.
Proof.
  destruct q as [n d]. unfold Qle, py_int. cbn [Qnum Qden].
  intro H. assert (Hn : Zpos d <= - n) by lia.
  assert (Hq : 0 < (- n) ÷ Zpos d) by (apply Z.quot_str_pos; lia).
  rewrite Z.quot_opp_l in Hq by lia. lia.
Qed.

(** X21: the clock is the wall clock.  If it has been set back by a second
    or more since the segment began, Pause and Stop take whole seconds off
    the accumulated time. *)
Theorem X21_clock_set_back_takes_time_off now r a w :
  state a = running -> _last_resume_at a = Some r -> (now + 1 <= r)%Q ->
  accum_seconds (fst (on_pause now a w)) < accum_seconds a /\
  total_sec now a < accum_seconds a.
Proof.
  intros Hst Hr Hback.
  assert (Hneg : py_int (now - r) <= -1) by (apply py_int_negative; lra).
  unfold on_pause, total_sec, stop_finalize, fold_segment.
  rewrite Hst, Hr. cbn. lia.
Qed.

(** X19: a Stop while running folds the running segment in exactly as a
    Pause at the same reading does: pressing Pause and then Stop, with the
    same reading and the same answers, leaves the same session and the same
    two files as pressing Stop alone. *)
Theorem X19_stop_folds_as_pause_does now user uuid4 io a w :
  state a = running ->
  let direct := on_stop' now user uuid4 io a w in
  let via_pause :=
    on_stop' now user uuid4 io (fst (on_pause now a w)) (snd (on_pause now a w)) in
  fst via_pause = fst direct /\
  jsonl_file (snd via_pause) = jsonl_file (snd direct) /\
  csv_file (snd via_pause) = csv_file (snd direct).
Proof.
  intros Hst direct via_pause. subst direct via_pause.
  assert (Hf : stop_finalize now (fst (on_pause now a w)) = stop_finalize now a).
  { unfold on_pause, stop_finalize, fold_segment. rewrite Hst.
    destruct (_last_resume_at a); reflexivity. }
  assert (Hs2 : state (fst (on_pause now a w)) <> idle).
  { unfold on_pause. rewrite Hst. discriminate. }
  assert (Hw : snd (on_pause now a w)
               = _update_buttons (fst (on_pause now a w)) w).
  { unfold on_pause. rewrite Hst. reflexivity. }
  rewrite (on_stop_active isoformat local_date now user uuid4 io a w)
    by congruence.
  rewrite (on_stop_active isoformat local_date now user uuid4 io _ _ Hs2).
  cbv zeta. unfold total_sec. rewrite Hf, Hw.
  destruct (accum_seconds (stop_finalize now a) <=? 0);
    [|destruct (truthy (dialog_result user)) as [d|];
      [destruct io as [|err|err]; cbn [write_logs]|]].
  all: rewrite ?reset_session_app.
  all: repeat match goal with |- context [_reset_session ?x ?y] =>
         let Hj := fresh in let Hc := fresh in
         destruct (reset_session_files x y) as [Hj Hc]; rewrite Hj, Hc;
         clear Hj Hc end.
  all: repeat split.
Qed.

End Clock.

Section Records.

Variable isoformat : Q -> str.
Variable local_date : Q -> str.

Local Abbreviation step' := (step isoformat local_date).
Local Abbreviation input_step' := (input_step isoformat local_date).
Local Abbreviation input_run' := (input_run isoformat local_date).




End Records.

(** * Instances of the further properties *)

Lemma X2_witness :
  0 <= 125 < 360000 /\ List.length (fmt_hms 125) = 8%nat.
Proof.
  assert (H : 0 <= 125 < 360000) by lia.
  split; [exact H|]. apply (proj1 (X2_fmt_hms_fixed_width 125 H)).
Defined.

Lemma X7_witness :
  state (fst just_played) <> idle /\ _tick_job (fst just_played) <> None /\
  exists calls,
    ui (snd (on_stop_modal epoch_text epoch_text 1005 (Save [] [] (py "done"))
               (py "id-1") IoOk 3 2 (fst just_played) (snd just_played)))
    = ui (snd just_played) ++ calls /\
    labels calls = repeat (fmt_hms 5) 5.
Proof.
  assert (Hst : state (fst just_played) <> idle) by discriminate.
  assert (Hjob : _tick_job (fst just_played) <> None) by discriminate.
  split; [exact Hst|]. split; [exact Hjob|].
  exact (proj2 (proj2 (X7_tidy_between_inputs_total_inside_stop
                         epoch_text epoch_text))
           1005%Q (Save [] [] (py "done")) (py "id-1") IoOk 3%nat 2%nat
           (fst just_played) (snd just_played) Hst Hjob).
Defined.

Lemma X9_witness :
  csv_file fresh_world = None /\
  snd (ensure_paths_io StartupOk fresh_world) = None /\
  csv_file (fst (ensure_paths_io StartupOk fresh_world)) = Some [header_line].
Proof.
  assert (H : csv_file fresh_world = None) by reflexivity.
  assert (Hret : snd (ensure_paths_io StartupOk fresh_world) = None) by reflexivity.
  split; [exact H|]. split; [exact Hret|].
  exact (proj1 (proj2 (proj2 (proj2
           (proj1 (X9_start_up_keeps_the_logs epoch_text epoch_text)
              StartupOk fresh_world)) Hret)) H).
Defined.

Lemma X11_witness :
  clock_monotone 0 scenario = true /\
  (last_time 0 scenario <= 1130)%Q /\
  0 <= total_sec 1130 (fst sample_running).
Proof.
  assert (Hm : clock_monotone 0 scenario = true) by reflexivity.
  assert (Ht : (last_time 0 scenario <= 1130)%Q)
    by (apply Qle_bool_iff; reflexivity).
  split; [exact Hm|]. split; [exact Ht|].
  apply (proj2 (X11_duration_not_negative epoch_text epoch_text
                  scenario 0 fresh_world 1130 Hm Ht)).
Defined.

Lemma X12_witness :
  trimmed (py "fix the build") /\
  exists d,
    _save (py "fix the build") [] [] = Some d /\
    dict_get d (py "ticket_url") [] = py "fix the build".
Proof.
  assert (H : trimmed (py "fix the build")) by (split; reflexivity).
  split; [exact H|].
  destruct (X12_saved_fields_are_trimmed (py "fix the build") [] [])
    as (d & Hs & _ & _ & _ & _ & _ & _ & Hl & _).
  exists d. split; [exact Hs | exact (Hl H)].
Defined.


Lemma X16_witness :
  state (fst sample_running) <> idle /\
  0 < total_sec 1130 (fst sample_running) /\
  total_sec 1200
    (fst (on_play 1150 1150
            (fst (on_stop epoch_text epoch_text 1130 Cancel [] IoOk
                    (fst sample_running) (snd sample_running)))
            (snd (on_stop epoch_text epoch_text 1130 Cancel [] IoOk
                    (fst sample_running) (snd sample_running)))))
  = total_sec 1130 (fst sample_running) + py_int (1200 - 1150).
Proof.
  assert (Hst : state (fst sample_running) <> idle) by discriminate.
  assert (Htot : 0 < total_sec 1130 (fst sample_running)) by reflexivity.
  split; [exact Hst|]. split; [exact Htot|].
  apply (proj2 (X16_resume_after_rollback epoch_text epoch_text
                  1130 1150 1150 1200 Cancel [] IoOk
                  (fst sample_running) (snd sample_running) Hst Htot
                  (or_introl eq_refl))).
Defined.

Lemma X17_witness :
  state (fst started) = idle /\ (1000 <= 2001 # 2)%Q /\
  ((2001 # 2) - 1000 <= below_one)%Q /\
  state
    (fst (on_stop epoch_text epoch_text (2001 # 2) Cancel [] IoOk
            (fst (on_play 1000 1000 (fst started) (snd started)))
            (snd (on_play 1000 1000 (fst started) (snd started)))))
  = idle.
Proof.
  assert (H0 : state (fst started) = idle) by reflexivity.
  assert (H1 : (1000 <= 2001 # 2)%Q) by (apply Qle_bool_iff; reflexivity).
  assert (H2 : ((2001 # 2) - 1000 <= below_one)%Q)
    by (apply Qle_bool_iff; reflexivity).
  split; [exact H0|]. split; [exact H1|]. split; [exact H2|].
  apply (proj1 (X17_sub_second_session_is_discarded epoch_text epoch_text
                  1000 1000 (2001 # 2) Cancel [] IoOk
                  (fst started) (snd started) H0 H1 H2)).
Defined.

Lemma X18_witness :
  enabled (Pause 1130) (fst sample_running) = true /\
  state (fst (step epoch_text epoch_text (Pause 1130)
                (fst sample_running, snd sample_running)))
  <> state (fst sample_running).
Proof.
  assert (H : enabled (Pause 1130) (fst sample_running) = true) by reflexivity.
  split; [exact H|].
  apply (proj2 (proj2 (X18_enabled_press_is_seen epoch_text epoch_text
                         (Pause 1130) (fst sample_running) (snd sample_running) H))).
Defined.

Lemma X19_witness :
  state (fst sample_running) = running /\
  fst (on_stop epoch_text epoch_text 1130 Cancel [] IoOk
         (fst (on_pause 1130 (fst sample_running) (snd sample_running)))
         (snd (on_pause 1130 (fst sample_running) (snd sample_running))))
  = fst (on_stop epoch_text epoch_text 1130 Cancel [] IoOk
           (fst sample_running) (snd sample_running)).
Proof.
  assert (H : state (fst sample_running) = running) by reflexivity.
  split; [exact H|].
  apply (proj1 (X19_stop_folds_as_pause_does epoch_text epoch_text
                  1130 Cancel [] IoOk (fst sample_running) (snd sample_running) H)).
Defined.


Lemma X21_witness :
  state (fst sample_running) = running /\
  _last_resume_at (fst sample_running) = Some 1070%Q /\
  (1000 + 1 <= 1070)%Q /\
  accum_seconds (fst (on_pause 1000 (fst sample_running) (snd sample_running)))
  < accum_seconds (fst sample_running).
Proof.
  assert (H0 : state (fst sample_running) = running) by reflexivity.
  assert (H1 : _last_resume_at (fst sample_running) = Some 1070%Q) by reflexivity.
  assert (H2 : (1000 + 1 <= 1070)%Q) by (apply Qle_bool_iff; reflexivity).
  split; [exact H0|]. split; [exact H1|]. split; [exact H2|].
  apply (proj1 (X21_clock_set_back_takes_time_off 1000 1070
                  (fst sample_running) (snd sample_running) H0 H1 H2)).
Defined.

Lemma X22_witness :
  (0 < 1000)%Q /\ (1130 <= 2 * 1000)%Q /\
  clock_monotone 1000 scenario = true /\
  (last_time 1000 scenario <= 1130)%Q /\
  state (fst sample_running) <> idle /\
  session_start (fst sample_running) = Some 1000%Q /\
  (inject_Z (total_sec 1130 (fst sample_running)) <= 1130 - 1000)%Q.
Proof.
  assert (Hp : (0 < 1000)%Q) by reflexivity.
  assert (H2 : (1130 <= 2 * 1000)%Q) by (apply Qle_bool_iff; reflexivity).
  assert (Hm : clock_monotone 1000 scenario = true) by reflexivity.
  assert (Ht : (last_time 1000 scenario <= 1130)%Q)
    by (apply Qle_bool_iff; reflexivity).
  assert (Hst : state (fst sample_running) <> idle) by discriminate.
  assert (Hs : session_start (fst sample_running) = Some 1000%Q) by reflexivity.
  repeat (split; [assumption|]).
  exact (X22_duration_within_the_span epoch_text epoch_text
           scenario 1000%Q fresh_world 1130%Q Hp H2 Hm Ht 1000%Q Hst Hs).
Defined.
